(** * clinical_trials_client: pagination loop and record projection

    A shallow embedding of [clinical_trials_client.py] and of its two
    callers: the values that [response.json()] hands to the program, the
    dictionary operations the code uses on them, the projection
    [_extract_study_data] and the pagination loop [fetch_all_trials],
    followed by the properties of the specification that concern them.

    Standard output is a UTF-8 text stream.  A [print] is modelled where
    its text holds a string taken from decoded JSON, which may hold a
    lone surrogate that the stream cannot encode; every other [print]
    writes fixed text, numbers, a [repr], the message of an exception or
    an excerpt of the response text as the HTTP library decoded it, and
    is left out, as is [time.sleep].  An expression evaluated only to be
    printed is kept when it can raise. *)

From Stdlib Require Import ZArith NArith List String Ascii Bool Lia.
From Stdlib Require Import Floats.SpecFloat.
From Stdlib Require DecimalString.
From stdpp Require Import gmap.

Import ListNotations.
Local Open Scope string_scope.
Local Open Scope list_scope.

(** ** Python values

    The values produced by decoding JSON: [None], booleans, integers,
    floats, strings, lists and dictionaries.  A dictionary keeps its keys
    in insertion order, so it is an association list read at the first
    occurrence of a key.  A string is held as its UTF-8 bytes, a lone
    surrogate (U+D800 to U+DFFF, which the escape [\ud800] of JSON
    produces) as the three bytes ED A0..BF 80..BF. *)

#[warnings="-register-all"]
Inductive pyval : Type :=
  | PNone
  | PBool (b : bool)
  | PInt (z : Z)
  | PFloat (f : spec_float)
  | PStr (s : string)
  | PList (l : list pyval)
  | PDict (d : list (string * pyval)).

Abbreviation dict := (list (string * pyval)).

(** The exceptions of the modelled code and of the calls it makes. *)
Inductive exn : Type :=
  | AttributeError       (* [.get] on a value that is not a dict *)
  | TypeError            (* [len] or iteration on a value that has neither *)
  | UnicodeEncodeError   (* [print] of text that stdout cannot encode *)
  | ConnectionError      (* requests.exceptions.ConnectionError *)
  | Timeout              (* requests.exceptions.Timeout *)
  | HTTPError            (* requests.exceptions.HTTPError *)
  | OtherRequestException (* any other requests.exceptions.RequestException *)
  | JSONDecodeError      (* json.JSONDecodeError, also as requests raises it *)
  | RecursionError
  | ValueError
  | OtherError (name : string).   (* any other exception class *)

Inductive res (A : Type) : Type :=
  | Ok (a : A)
  | Raise (e : exn).
Arguments Ok {A} a.
Arguments Raise {A} e.

Definition bind {A B : Type} (m : res A) (k : A -> res B) : res B :=
  match m with
  | Ok a => k a
  | Raise e => Raise e
  end.

Notation "'let*' x ':=' m 'in' k" := (bind m (fun x => k))
  (at level 10, x name, m at level 100, k at level 200).

Module Dict.

(** [d.get(k)] on the association list: the first binding of [k]. *)
Fixpoint get (k : string) (d : dict) : option pyval :=
  match d with
  | [] => None
  | (k', v) :: d' => if String.eqb k k' then Some v else get k d'
  end.

(** [d[k] = v]: overwrite in place, or append a new key at the end. *)
Fixpoint set (k : string) (v : pyval) (d : dict) : dict :=
  match d with
  | [] => [(k, v)]
  | (k', v') :: d' =>
      if String.eqb k k' then (k', v) :: d' else (k', v') :: set k v d'
  end.

Definition keys (d : dict) : list string := map fst d.

End Dict.

(** [v.get(k, dflt)]: defined on dictionaries only. *)
Definition py_get (v : pyval) (k : string) (dflt : pyval) : res pyval :=
  match v with
  | PDict d =>
      match Dict.get k d with
      | Some x => Ok x
      | None => Ok dflt
      end
  | _ => Raise AttributeError
  end.

(** The characters of a string, each as a one-character string. *)
Fixpoint chars (s : string) : list pyval :=
  match s with
  | EmptyString => []
  | String c s' => PStr (String c EmptyString) :: chars s'
  end.

(** [iter(v)] run to the end: the elements of a list, the characters of a
    string, the keys of a dictionary. *)
Definition py_iter (v : pyval) : res (list pyval) :=
  match v with
  | PList l => Ok l
  | PStr s => Ok (chars s)
  | PDict d => Ok (map PStr (Dict.keys d))
  | _ => Raise TypeError
  end.

(** [len(v)]. *)
Definition py_len (v : pyval) : res Z :=
  match v with
  | PList l => Ok (Z.of_nat (length l))
  | PStr s => Ok (Z.of_nat (String.length s))
  | PDict d => Ok (Z.of_nat (length d))
  | _ => Raise TypeError
  end.

(** Truth value of [v] in an [if]. *)
Definition truthy (v : pyval) : bool :=
  match v with
  | PNone => false
  | PBool b => b
  | PInt z => negb (Z.eqb z 0)
  | PFloat (S754_zero _) => false
  | PFloat _ => true
  | PStr s => negb (String.eqb s "")
  | PList [] => false
  | PList _ => true
  | PDict [] => false
  | PDict _ => true
  end.

(** [[f(x) for x in items]], stopping at the first exception. *)
Fixpoint comprehension (f : pyval -> res pyval) (items : list pyval)
  : res (list pyval) :=
  match items with
  | [] => Ok []
  | x :: rest =>
      let* y := f x in
      let* ys := comprehension f rest in
      Ok (y :: ys)
  end.

Definition list_comp (f : pyval -> res pyval) (v : pyval) : res pyval :=
  let* items := py_iter v in
  let* ys := comprehension f items in
  Ok (PList ys).

Definition Not_Available : pyval := PStr "Not Available".
Definition N_A : pyval := PStr "N/A".
Definition empty_dict : pyval := PDict [].
Definition empty_list : pyval := PList [].

(** ** Printing

    The bytes ED A0..BF open the encoding of a lone surrogate. *)
Definition opens_surrogate (c c' : ascii) : bool :=
  (N_of_ascii c =? 237)%N && (160 <=? N_of_ascii c')%N.

(** Whether the UTF-8 stream can encode the string: it holds no lone
    surrogate. *)
Fixpoint encodable (s : string) : bool :=
  match s with
  | EmptyString => true
  | String c s' =>
      match s' with
      | EmptyString => true
      | String c' _ => negb (opens_surrogate c c') && encodable s'
      end
  end.

(** [print(f"...{v}...")]: the fixed text is ASCII; [v] is written as
    [str(v)], which is the string itself for a string and, for any other
    value, text in which [repr] has escaped what cannot be printed. *)
Definition print_value (v : pyval) : res unit :=
  match v with
  | PStr s => if encodable s then Ok tt else Raise UnicodeEncodeError
  | _ => Ok tt
  end.

(** ** The record projector *)

Section Projector.

(** [str(v)], as the f-string of the locations uses it.  Printing floats
    and nested containers is the interpreter's business; the projection
    is parametric in it. *)
Variable py_str : pyval -> string.

(** [f"{loc.get('city', 'N/A')}, {loc.get('country', 'N/A')}"] *)
Definition location_string (loc : pyval) : res pyval :=
  let* city := py_get loc "city" N_A in
  let* country := py_get loc "country" N_A in
  Ok (PStr (py_str city ++ ", " ++ py_str country)).

(** Lines 28--32 of the [try] block, up to the assignment of [nct_id]. *)
Definition identification (study_dict : pyval)
  : res (pyval * pyval * pyval) :=
  let* protocol := py_get study_dict "protocolSection" empty_dict in
  let* id_module := py_get protocol "identificationModule" empty_dict in
  let* nct_id := py_get id_module "nctId" Not_Available in
  Ok (protocol, id_module, nct_id).

(** Lines 33--84 of the [try] block. *)
Definition projection (protocol id_module nct_id : pyval) : res pyval :=
  let* title := py_get id_module "briefTitle" Not_Available in
  (* Status *)
  let* status_module := py_get protocol "statusModule" empty_dict in
  let* status := py_get status_module "overallStatus" Not_Available in
  let* start_struct := py_get status_module "startDateStruct" empty_dict in
  let* start_date := py_get start_struct "date" Not_Available in
  let* completion_struct :=
    py_get status_module "completionDateStruct" empty_dict in
  let* completion_date := py_get completion_struct "date" Not_Available in
  (* Design *)
  let* design_module := py_get protocol "designModule" empty_dict in
  let* phases := py_get design_module "phases" empty_list in
  let* study_type := py_get design_module "studyType" Not_Available in
  let* enrollment_info := py_get design_module "enrollmentInfo" empty_dict in
  let* enrollment := py_get enrollment_info "count" PNone in
  (* Conditions *)
  let* cond_module := py_get protocol "conditionsModule" empty_dict in
  let* conditions := py_get cond_module "conditions" empty_list in
  let* keywords := py_get cond_module "keywords" empty_list in
  (* Eligibility *)
  let* elig_module := py_get protocol "eligibilityModule" empty_dict in
  let* eligibility := py_get elig_module "eligibilityCriteria" Not_Available in
  (* Interventions *)
  let* interv_module := py_get protocol "armsInterventionsModule" empty_dict in
  let* interventions_list := py_get interv_module "interventions" empty_list in
  let* intervention_names :=
    list_comp (fun interv => py_get interv "name" N_A) interventions_list in
  (* Description *)
  let* desc_module := py_get protocol "descriptionModule" empty_dict in
  let* brief_summary := py_get desc_module "briefSummary" Not_Available in
  (* Outcomes *)
  let* outcome_module := py_get protocol "outcomesModule" empty_dict in
  let* primary_outcomes_list :=
    py_get outcome_module "primaryOutcomes" empty_list in
  let* primary_outcome_measures :=
    list_comp (fun outcome => py_get outcome "measure" N_A)
              primary_outcomes_list in
  (* Locations *)
  let* contact_loc_module :=
    py_get protocol "contactsLocationsModule" empty_dict in
  let* locations_list := py_get contact_loc_module "locations" empty_list in
  let* location_info := list_comp location_string locations_list in
  (* Assemble *)
  Ok (PDict
        [ ("NCT ID", nct_id); ("Title", title); ("Status", status);
          ("Phases", phases); ("Conditions", conditions);
          ("Keywords", keywords); ("Study Type", study_type);
          ("Enrollment", enrollment); ("Interventions", intervention_names);
          ("Brief Summary", brief_summary);
          ("Primary Outcome Measures", primary_outcome_measures);
          ("Eligibility Criteria", eligibility); ("Start Date", start_date);
          ("Completion Date", completion_date);
          ("Locations", location_info) ]).

(** The whole [try] block. *)
Definition extract_body (study_dict : pyval) : res pyval :=
  match identification study_dict with
  | Ok (protocol, id_module, nct_id) => projection protocol id_module nct_id
  | Raise e => Raise e
  end.

(** The [except Exception] clause: the diagnostic line names [nct_id],
    then [None] is returned.  The message of the exception caught is
    ASCII. *)
Definition except_handler (nct_id : pyval) : res pyval :=
  let* _ := print_value nct_id in
  Ok PNone.

(** [_extract_study_data]: the assembled dictionary, or what the handler
    does when anything in the [try] block raised; [nct_id] then holds the
    identifier if line 32 was reached, its initial value otherwise. *)
Definition _extract_study_data (study_dict : pyval) : res pyval :=
  let nct_id := Not_Available in
  match identification study_dict with
  | Raise _ => except_handler nct_id
  | Ok (protocol, id_module, nct_id) =>
      match projection protocol id_module nct_id with
      | Ok extracted_info => Ok extracted_info
      | Raise _ => except_handler nct_id
      end
  end.

(** The [for study_raw in current_page_studies_raw] loop: each record is
    projected and appended when the projection is truthy; an exception
    that leaves the projection leaves the loop. *)
Fixpoint extract_each (studies : list pyval)
         (all_extracted_studies : list pyval) : res (list pyval) :=
  match studies with
  | [] => Ok all_extracted_studies
  | study_raw :: rest =>
      let* extracted_data := _extract_study_data study_raw in
      if truthy extracted_data
      then extract_each rest (all_extracted_studies ++ [extracted_data])
      else extract_each rest all_extracted_studies
  end.

End Projector.

(** ** The query runner *)

(** What the HTTP library does for one request: [requests.get] raises,
    or it returns a response with a status code, whose [json()] returns
    the decoded body or raises. *)
Inductive reply : Type :=
  | NoResponse (e : exn)
  | HttpResponse (status_code : Z) (json : res pyval).

(** [response.raise_for_status()]: an [HTTPError] on 4xx and 5xx. *)
Definition raise_for_status (status_code : Z) : res unit :=
  if ((400 <=? status_code) && (status_code <? 600))%Z
  then Raise HTTPError
  else Ok tt.

(** Lines 124--126, the body of the [try]. *)
Definition try_block (rp : reply) : res pyval :=
  match rp with
  | NoResponse e => Raise e
  | HttpResponse status_code json =>
      let* _ := raise_for_status status_code in
      json
  end.

(** [except requests.exceptions.RequestException] *)
Definition is_RequestException (e : exn) : bool :=
  match e with
  | ConnectionError | Timeout | HTTPError | OtherRequestException => true
  | _ => false
  end.

(** [except json.JSONDecodeError] *)
Definition is_JSONDecodeError (e : exn) : bool :=
  match e with
  | JSONDecodeError => true
  | _ => false
  end.

(** How the [try] statement of lines 123--135 is left: one of the two
    [except] clauses caught the exception, or no clause did, or the body
    completed with [data]. *)
Inductive response : Type :=
  | Caught (e : exn)
  | Escaped (e : exn)
  | Json (data : pyval).

Definition attempt (rp : reply) : response :=
  match try_block rp with
  | Ok data => Json data
  | Raise e =>
      if is_RequestException e || is_JSONDecodeError e
      then Caught e
      else Escaped e
  end.


(** Dictionaries passed by reference live in a store. *)
Abbreviation loc := positive.
Abbreviation heap := (gmap loc dict).

(** One request: the parameters sent and what came of it. *)
Abbreviation exchange := (dict * response)%type.

(** How a call ends: it returns a list or an exception leaves it. *)
Inductive outcome : Type :=
  | Return (studies : list pyval)
  | Raised (e : exn).

Record run : Type := mk_run {
  result : outcome;
  requests : list exchange;   (* the GET requests issued, oldest first *)
  final_heap : heap
}.

(** The local variables of the loop, with the store and the requests
    issued so far. *)
Record state : Type := mk_state {
  st_heap : heap;
  st_requests : list exchange;
  all_extracted_studies : list pyval;
  current_page : Z
}.

Inductive step : Type :=
  | Break (r : run)
  | Continue (st : state)
  | Dangling.   (* a reference outside the store: no Python state has one *)

Section Runner.

Variable py_str : pyval -> string.

(** The remote service seen through the HTTP library: what happens to
    the [n]-th request (from 0) sent with parameters [params]. *)
Variable server : nat -> dict -> reply.

(** Lines 138--144: the raw records of a decoded page, as the [for]
    loop visits them.  [len] is evaluated for the progress message. *)
Definition page_studies (data : pyval) : res (list pyval) :=
  let* current_page_studies_raw := py_get data "studies" empty_list in
  let* _ := py_len current_page_studies_raw in
  py_iter current_page_studies_raw.

(** Lines 138--147: the records a decoded page adds to the result. *)
Definition page_records (data : pyval) : res (list pyval) :=
  let* studies := page_studies data in
  extract_each py_str studies [].

Definition stop (o : outcome) (st : state) : step :=
  Break (mk_run o (st_requests st) (st_heap st)).

(** One turn of [while True]. *)
Definition loop_body (max_pages : Z) (local_query_params : loc)
           (st : state) : step :=
  let current_page := (current_page st + 1)%Z in
  if (current_page >? max_pages)%Z
  then stop (Return (all_extracted_studies st)) st
  else
    match st_heap st !! local_query_params with
    | None => Dangling
    | Some params =>
        let resp := attempt (server (length (st_requests st)) params) in
        let sent := st_requests st ++ [(params, resp)] in
        match resp with
        | Caught _ =>
            (* both clauses: break *)
            Break (mk_run (Return (all_extracted_studies st)) sent
                          (st_heap st))
        | Escaped e =>
            Break (mk_run (Raised e) sent (st_heap st))
        | Json data =>
            match page_records data with
            | Raise e =>
                Break (mk_run (Raised e) sent (st_heap st))
            | Ok extracted =>
                let studies := all_extracted_studies st ++ extracted in
                match py_get data "nextPageToken" PNone with
                | Raise e =>
                    Break (mk_run (Raised e) sent (st_heap st))
                | Ok next_page_token =>
                    if truthy next_page_token
                    then
                      Continue
                        (mk_state
                           (<[local_query_params :=
                                Dict.set "pageToken" next_page_token params]>
                              (st_heap st))
                           sent studies current_page)
                    else
                      Break (mk_run (Return studies) sent (st_heap st))
                end
            end
        end
    end.

(** [while True: ...], unrolled at most [fuel] times. *)
Fixpoint loop (fuel : nat) (max_pages : Z) (local_query_params : loc)
         (st : state) : option run :=
  match fuel with
  | O => None
  | S fuel' =>
      match loop_body max_pages local_query_params st with
      | Break r => Some r
      | Continue st' => loop fuel' max_pages local_query_params st'
      | Dangling => None
      end
  end.

(** [fetch_all_trials(query_params, max_pages, page_size)], called with
    the store [h] in which [query_params] names the caller's dictionary.
    The loop runs its body at most [max_pages + 1] times. *)
Definition fetch_all_trials (h : heap) (query_params : loc)
           (max_pages page_size : Z) : option run :=
  match h !! query_params with
  | None => None
  | Some q =>
      (* local_query_params = query_params.copy() *)
      let local_query_params := fresh (dom h) in
      let h := <[local_query_params := q]> h in
      (* local_query_params['pageSize'] = page_size *)
      let h :=
        <[local_query_params := Dict.set "pageSize" (PInt page_size) q]> h in
      loop (S (Z.to_nat max_pages)) max_pages local_query_params
           (mk_state h [] [] 0%Z)
  end.

(** The loop as a relation: [runs max_pages l st sent o h] when the loop
    entered in state [st] issues the requests [sent], ends with [o] and
    leaves the store [h]. *)
Inductive runs (max_pages : Z) (l : loc)
  : state -> list exchange -> outcome -> heap -> Prop :=
  | runs_limit st :
      (current_page st + 1 > max_pages)%Z ->
      runs max_pages l st [] (Return (all_extracted_studies st)) (st_heap st)
  | runs_caught st params e :
      (current_page st + 1 <= max_pages)%Z ->
      st_heap st !! l = Some params ->
      attempt (server (length (st_requests st)) params) = Caught e ->
      runs max_pages l st [(params, Caught e)]
           (Return (all_extracted_studies st)) (st_heap st)
  | runs_escaped st params e :
      (current_page st + 1 <= max_pages)%Z ->
      st_heap st !! l = Some params ->
      attempt (server (length (st_requests st)) params) = Escaped e ->
      runs max_pages l st [(params, Escaped e)] (Raised e) (st_heap st)
  | runs_raised st params data e :
      (current_page st + 1 <= max_pages)%Z ->
      st_heap st !! l = Some params ->
      attempt (server (length (st_requests st)) params) = Json data ->
      page_records data = Raise e ->
      runs max_pages l st [(params, Json data)] (Raised e) (st_heap st)
  | runs_last st params data extracted token :
      (current_page st + 1 <= max_pages)%Z ->
      st_heap st !! l = Some params ->
      attempt (server (length (st_requests st)) params) = Json data ->
      page_records data = Ok extracted ->
      py_get data "nextPageToken" PNone = Ok token ->
      truthy token = false ->
      runs max_pages l st [(params, Json data)]
           (Return (all_extracted_studies st ++ extracted)) (st_heap st)
  | runs_next st params data extracted token sent o h :
      (current_page st + 1 <= max_pages)%Z ->
      st_heap st !! l = Some params ->
      attempt (server (length (st_requests st)) params) = Json data ->
      page_records data = Ok extracted ->
      py_get data "nextPageToken" PNone = Ok token ->
      truthy token = true ->
      runs max_pages l
           (mk_state (<[l := Dict.set "pageToken" token params]> (st_heap st))
                     (st_requests st ++ [(params, Json data)])
                     (all_extracted_studies st ++ extracted)
                     (current_page st + 1))
           sent o h ->
      runs max_pages l st ((params, Json data) :: sent) o h.

(** The records an exchange contributes to the result. *)
Definition exchange_records (e : exchange) : list pyval :=
  match snd e with
  | Json data =>
      match page_records data with
      | Ok extracted => extracted
      | Raise _ => []
      end
  | _ => []
  end.

(** The service never puts more than [page_size] raw records on a page. *)
Definition honours_page_size (page_size : Z) : Prop :=
  forall n params data studies,
    attempt (server n params) = Json data ->
    page_studies data = Ok studies ->
    (Z.of_nat (length studies) <= page_size)%Z.

(** [delivers n params pages params']: the requests number [n] onwards,
    the first sent with [params], are answered by the pages [pages] one
    after the other, each processed without an exception and carrying a
    token; the request after them is to be sent with [params']. *)
Inductive delivers : nat -> dict -> list exchange -> dict -> Prop :=
  | delivers_none n params : delivers n params [] params
  | delivers_page n params data extracted token pages params' :
      attempt (server n params) = Json data ->
      page_records data = Ok extracted ->
      py_get data "nextPageToken" PNone = Ok token ->
      truthy token = true ->
      delivers (S n) (Dict.set "pageToken" token params) pages params' ->
      delivers n params ((params, Json data) :: pages) params'.

End Runner.

(** ** Vocabulary of the specification *)

(** Following a path of keys through nested dictionaries; [None] when a
    key on the way is absent (or the value reached is not a dictionary). *)
Fixpoint lookup_path (path : list string) (v : pyval) : option pyval :=
  match path with
  | [] => Some v
  | k :: path' =>
      match v with
      | PDict d =>
          match Dict.get k d with
          | Some x => lookup_path path' x
          | None => None
          end
      | _ => None
      end
  end.

(** A field of a raw record is missing when its path under
    [protocolSection] leads nowhere. *)
Definition missing (path : list string) (raw : pyval) : Prop :=
  lookup_path ("protocolSection" :: path) raw = None.

(** Output key, path of the source field, value reported when missing. *)
Definition field_defaults : list (string * list string * pyval) :=
  [ ("NCT ID", ["identificationModule"; "nctId"], PStr "Not Available");
    ("Title", ["identificationModule"; "briefTitle"], PStr "Not Available");
    ("Status", ["statusModule"; "overallStatus"], PStr "Not Available");
    ("Study Type", ["designModule"; "studyType"], PStr "Not Available");
    ("Brief Summary", ["descriptionModule"; "briefSummary"],
     PStr "Not Available");
    ("Eligibility Criteria", ["eligibilityModule"; "eligibilityCriteria"],
     PStr "Not Available");
    ("Start Date", ["statusModule"; "startDateStruct"; "date"],
     PStr "Not Available");
    ("Completion Date", ["statusModule"; "completionDateStruct"; "date"],
     PStr "Not Available");
    ("Phases", ["designModule"; "phases"], PList []);
    ("Conditions", ["conditionsModule"; "conditions"], PList []);
    ("Keywords", ["conditionsModule"; "keywords"], PList []);
    ("Interventions", ["armsInterventionsModule"; "interventions"], PList []);
    ("Primary Outcome Measures", ["outcomesModule"; "primaryOutcomes"],
     PList []);
    ("Locations", ["contactsLocationsModule"; "locations"], PList []);
    ("Enrollment", ["designModule"; "enrollmentInfo"; "count"], PNone) ].

(** The fixed keys of an extracted record, in serialization order. *)
Definition output_keys : list string :=
  [ "NCT ID"; "Title"; "Status"; "Phases"; "Conditions"; "Keywords";
    "Study Type"; "Enrollment"; "Interventions"; "Brief Summary";
    "Primary Outcome Measures"; "Eligibility Criteria"; "Start Date";
    "Completion Date"; "Locations" ].

(** The entries of the list found at [path] under [protocolSection]. *)
Definition entries (path : list string) (raw : pyval) : list pyval :=
  match lookup_path ("protocolSection" :: path) raw with
  | Some v =>
      match py_iter v with
      | Ok items => items
      | Raise _ => []
      end
  | None => []
  end.

(** Field [k] of an entry, or [dflt] when the entry lacks it. *)
Definition field_or (k : string) (dflt : pyval) (entry : pyval) : pyval :=
  match entry with
  | PDict d =>
      match Dict.get k d with
      | Some x => x
      | None => dflt
      end
  | _ => dflt
  end.

(** The text of part [k] of a location entry, ["N/A"] when it has none. *)
Definition part (py_str : pyval -> string) (k : string) (loc : pyval)
  : string :=
  match loc with
  | PDict d =>
      match Dict.get k d with
      | Some x => py_str x
      | None => "N/A"
      end
  | _ => "N/A"
  end.

Definition is_dict (v : pyval) : bool :=
  match v with
  | PDict _ => true
  | _ => false
  end.

(** The record obtained when every field takes its default. *)
Definition default_fields : dict :=
  [ ("NCT ID", PStr "Not Available"); ("Title", PStr "Not Available");
    ("Status", PStr "Not Available"); ("Phases", PList []);
    ("Conditions", PList []); ("Keywords", PList []);
    ("Study Type", PStr "Not Available"); ("Enrollment", PNone);
    ("Interventions", PList []); ("Brief Summary", PStr "Not Available");
    ("Primary Outcome Measures", PList []);
    ("Eligibility Criteria", PStr "Not Available");
    ("Start Date", PStr "Not Available");
    ("Completion Date", PStr "Not Available"); ("Locations", PList []) ].

Definition all_defaults : pyval := PDict default_fields.

(** An exchange whose body was decoded. *)
Definition is_page (e : exchange) : bool :=
  match snd e with
  | Json _ => true
  | _ => false
  end.

(** The exchanges of a run that delivered a decoded page. *)
Definition pages_fetched (r : run) : nat :=
  length (List.filter is_page (requests r)).

(** What [nct_id] holds when the [except] clause of the projection runs:
    the identifier read at line 32, or the initial value when the [try]
    block did not get that far. *)
Definition diagnostic_id (raw : pyval) : pyval :=
  match identification raw with
  | Ok (_, _, nct_id) => nct_id
  | Raise _ => Not_Available
  end.

(** The [try] block of the projection raises on the record: somewhere
    navigation fails. *)
Definition navigation_fails (py_str : pyval -> string) (raw : pyval) : Prop :=
  exists e, extract_body py_str raw = Raise e.

(** [print] can write the value. *)
Definition printable (v : pyval) : bool :=
  match print_value v with
  | Ok _ => true
  | Raise _ => false
  end.

(** ** Inputs for the examples *)

(** [str] on the scalars whose text needs no float printing and no
    quoting: strings, [None], booleans and integers. *)
Definition str_scalar (v : pyval) : string :=
  match v with
  | PStr s => s
  | PNone => "None"
  | PBool true => "True"
  | PBool false => "False"
  | PInt z => DecimalString.NilZero.string_of_int (Z.to_int z)
  | _ => "..."
  end.

(** A service that replays a fixed list of replies, whatever is asked;
    past the end of the list no connection is made. *)
Definition canned (l : list reply) (n : nat) (_ : dict) : reply :=
  nth n l (NoResponse ConnectionError).

(** A response with status 200 whose body decodes to [data]. *)
Definition ok_200 (data : pyval) : reply := HttpResponse 200 (Ok data).

(** The string that the JSON escape [\ud800] decodes to. *)
Definition lone_surrogate : string :=
  String (ascii_of_N 237) (String (ascii_of_N 160)
    (String (ascii_of_N 128) EmptyString)).

(** A record with interventions, outcomes and locations, some of them
    lacking a part. *)
Definition study_a : pyval :=
  PDict
    [ ("protocolSection",
       PDict
         [ ("identificationModule",
            PDict [("nctId", PStr "NCT00001"); ("briefTitle", PStr "A")]);
           ("statusModule",
            PDict [("overallStatus", PStr "COMPLETED");
                   ("startDateStruct", PDict [("date", PStr "2020-01")])]);
           ("designModule",
            PDict [("phases", PList [PStr "PHASE2"]);
                   ("enrollmentInfo", PDict [("count", PInt 0)])]);
           ("armsInterventionsModule",
            PDict [("interventions",
                    PList [PDict [("name", PStr "Metformin")];
                           PDict [("type", PStr "DRUG")]])]);
           ("outcomesModule",
            PDict [("primaryOutcomes",
                    PList [PDict [("timeFrame", PStr "1y")];
                           PDict [("measure", PStr "HbA1c")]])]);
           ("contactsLocationsModule",
            PDict [("locations",
                    PList [PDict [("city", PStr "Lyon");
                                  ("country", PStr "France")];
                           PDict [("city", PStr "Oslo")];
                           PDict []])]) ]) ].

(** What [study_a] projects to. *)
Definition record_a : dict :=
  [ ("NCT ID", PStr "NCT00001"); ("Title", PStr "A");
    ("Status", PStr "COMPLETED"); ("Phases", PList [PStr "PHASE2"]);
    ("Conditions", PList []); ("Keywords", PList []);
    ("Study Type", PStr "Not Available"); ("Enrollment", PInt 0);
    ("Interventions", PList [PStr "Metformin"; PStr "N/A"]);
    ("Brief Summary", PStr "Not Available");
    ("Primary Outcome Measures", PList [PStr "N/A"; PStr "HbA1c"]);
    ("Eligibility Criteria", PStr "Not Available");
    ("Start Date", PStr "2020-01");
    ("Completion Date", PStr "Not Available");
    ("Locations",
     PList [PStr "Lyon, France"; PStr "Oslo, N/A"; PStr "N/A, N/A"]) ].

(** A record without [protocolSection]. *)
Definition study_bare : pyval := PDict [("hasResults", PBool false)].

(** A record whose [protocolSection] is [null]. *)
Definition study_broken : pyval := PDict [("protocolSection", PNone)].

(** A record whose identifier is a lone surrogate and whose status
    section is [null]. *)
Definition study_unprintable : pyval :=
  PDict
    [ ("protocolSection",
       PDict [ ("identificationModule",
                PDict [("nctId", PStr lone_surrogate)]);
               ("statusModule", PNone) ]) ].

Definition caller_query : dict := [("query.cond", PStr "diabetes")].

(** The caller's store: one query dictionary at address 1. *)
Definition caller_heap : heap :=
  {[ 1%positive := caller_query ]}.

(** The parameters of the first request and of the one that follows a
    page with the token "p2". *)
Definition query_sized : dict :=
  [("query.cond", PStr "diabetes"); ("pageSize", PInt 100)].

Definition query_p2 : dict :=
  [("query.cond", PStr "diabetes"); ("pageSize", PInt 100);
   ("pageToken", PStr "p2")].

(** A page with one record and the token "p2". *)
Definition page_a : dict :=
  [("studies", PList [study_a]); ("nextPageToken", PStr "p2")].

(** A page with two records, one of which fails to project, and the
    token "p2"; an empty page with the token "p3". *)
Definition page_a_broken : dict :=
  [("studies", PList [study_a; study_broken]); ("nextPageToken", PStr "p2")].

Definition page_empty : dict :=
  [("studies", PList []); ("nextPageToken", PStr "p3")].

(** Three pages chained by the tokens "p2" and "p3". *)
Definition three_pages : list reply :=
  [ ok_200 (PDict page_a_broken);
    ok_200 (PDict page_empty);
    ok_200 (PDict [("studies", PList [study_bare])]) ].

(** The same three pages, the first with one more record, which fails to
    project and whose identifier cannot be printed. *)
Definition three_pages_unprintable : list reply :=
  [ ok_200 (PDict [("studies", PList [study_a; study_unprintable]);
                   ("nextPageToken", PStr "p2")]);
    ok_200 (PDict [("studies", PList []); ("nextPageToken", PStr "p3")]);
    ok_200 (PDict [("studies", PList [study_bare])]) ].


(** A page, then a body that nests too deep for the decoder. *)
Definition page_then_too_deep : list reply :=
  [ ok_200 (PDict page_a); HttpResponse 200 (Raise RecursionError) ].

(** A page, then a response with an error status. *)
Definition page_then_error : list reply :=
  [ ok_200 (PDict page_a); HttpResponse 503 (Raise JSONDecodeError) ].

(** One page carrying two records. *)
Definition oversized_page : list reply :=
  [ ok_200 (PDict [("studies", PList [study_a; study_bare])]) ].

(** ** The callers and further vocabulary *)

(** [DEFAULT_PAGE_SIZE] *)
Definition DEFAULT_PAGE_SIZE : Z := 100.

(** agent.py: the parameters, the store that holds them at address 1, and
    the call [fetch_all_trials(query_params=api_params, max_pages=5)]. *)
Definition api_params : dict := [("query.cond", PStr "breast cancer")].

Definition agent_heap : heap := {[ 1%positive := api_params ]}.

Definition agent (py_str : pyval -> string)
           (server : nat -> dict -> reply) : option run :=
  fetch_all_trials py_str server agent_heap 1%positive 5 DEFAULT_PAGE_SIZE.

(** The example of the [__main__] block. *)
Definition test_query : dict := [("query.cond", PStr "diabetes")].

(** What the example shows: the message that nothing came back, or the
    announced number of studies and, per study shown, the three values
    that are printed. *)
Inductive printed : Type :=
  | NoResults
  | Studies (shown : nat) (rows : list (pyval * pyval * pyval)).

(** Lines 181--183: [print(f"  NCT ID: {study.get('NCT ID')}")] and the
    same for the title and the status. *)
Definition summary_row (study : pyval) : res (pyval * pyval * pyval) :=
  let* nct_id := py_get study "NCT ID" PNone in
  let* _ := print_value nct_id in
  let* title := py_get study "Title" PNone in
  let* _ := print_value title in
  let* status := py_get study "Status" PNone in
  let* _ := print_value status in
  Ok (nct_id, title, status).

Fixpoint summary_rows (studies : list pyval)
  : res (list (pyval * pyval * pyval)) :=
  match studies with
  | [] => Ok []
  | study :: rest =>
      let* row := summary_row study in
      let* rows := summary_rows rest in
      Ok (row :: rows)
  end.

(** [if results: ... for i, study in enumerate(results[:3]) ... else ...] *)
Definition example_report (results : list pyval) : res printed :=
  if truthy (PList results)
  then
    let* rows := summary_rows (firstn 3 results) in
    Ok (Studies (Nat.min 3 (length results)) rows)
  else Ok NoResults.

Definition example_usage (py_str : pyval -> string)
           (server : nat -> dict -> reply) : option (res printed) :=
  match fetch_all_trials py_str server {[ 1%positive := test_query ]}
                         1%positive 2 20 with
  | Some r =>
      match result r with
      | Return results => Some (example_report results)
      | Raised e => Some (Raise e)
      end
  | None => None
  end.

(** Output key and source path of the fields that are copied as found. *)
Definition direct_fields : list (string * list string) :=
  [ ("NCT ID", ["identificationModule"; "nctId"]);
    ("Title", ["identificationModule"; "briefTitle"]);
    ("Status", ["statusModule"; "overallStatus"]);
    ("Start Date", ["statusModule"; "startDateStruct"; "date"]);
    ("Completion Date", ["statusModule"; "completionDateStruct"; "date"]);
    ("Phases", ["designModule"; "phases"]);
    ("Study Type", ["designModule"; "studyType"]);
    ("Enrollment", ["designModule"; "enrollmentInfo"; "count"]);
    ("Conditions", ["conditionsModule"; "conditions"]);
    ("Keywords", ["conditionsModule"; "keywords"]);
    ("Eligibility Criteria", ["eligibilityModule"; "eligibilityCriteria"]);
    ("Brief Summary", ["descriptionModule"; "briefSummary"]) ].

(** The paths, under [protocolSection], that the projection navigates
    through: the value found there has [.get] called on it. *)
Definition section_paths : list (list string) :=
  [ [];
    ["identificationModule"];
    ["statusModule"];
    ["statusModule"; "startDateStruct"];
    ["statusModule"; "completionDateStruct"];
    ["designModule"];
    ["designModule"; "enrollmentInfo"];
    ["conditionsModule"];
    ["eligibilityModule"];
    ["armsInterventionsModule"];
    ["descriptionModule"];
    ["outcomesModule"];
    ["contactsLocationsModule"] ].

(** The paths of the three lists whose entries are read one by one. *)
Definition entry_list_paths : list (list string) :=
  [ ["armsInterventionsModule"; "interventions"];
    ["outcomesModule"; "primaryOutcomes"];
    ["contactsLocationsModule"; "locations"] ].

(** A record with the fifteen output keys. *)
Definition complete_record (v : pyval) : Prop :=
  exists rec, v = PDict rec /\ Dict.keys rec = output_keys.

(** The raw records an exchange delivered, in page order. *)
Definition exchange_studies (e : exchange) : list pyval :=
  match snd e with
  | Json data =>
      match page_studies data with
      | Ok studies => studies
      | Raise _ => []
      end
  | _ => []
  end.

(** [row] holds the identifier, title and status stored in [study]. *)
Definition row_of (study : pyval) (row : pyval * pyval * pyval) : Prop :=
  exists rec,
    study = PDict rec /\
    Dict.get "NCT ID" rec = Some (fst (fst row)) /\
    Dict.get "Title" rec = Some (snd (fst row)) /\
    Dict.get "Status" rec = Some (snd row).

(** The three values of a row can be printed. *)
Definition row_printable (row : pyval * pyval * pyval) : bool :=
  printable (fst (fst row)) && printable (snd (fst row))
  && printable (snd row).

(** A value on which [len] raises. *)
Definition no_len (v : pyval) : bool :=
  match py_len v with
  | Ok _ => false
  | Raise _ => true
  end.

(** Further inputs for the examples. *)

(** A record whose status section is [null]. *)
Definition study_null_status : pyval :=
  PDict [("protocolSection", PDict [("statusModule", PNone)])].

(** A record that projects, with a lone surrogate as identifier. *)
Definition study_surrogate_id : pyval :=
  PDict
    [ ("protocolSection",
       PDict [("identificationModule",
               PDict [("nctId", PStr lone_surrogate)])]) ].

(** A page whose token is the empty string, then one more page. *)
Definition empty_token_then_page : list reply :=
  [ ok_200 (PDict [("studies", PList [study_a]);
                   ("nextPageToken", PStr "")]);
    ok_200 (PDict [("studies", PList [study_bare])]) ].

(** A page, then a body that is a JSON array. *)
Definition page_then_array : list reply :=
  [ ok_200 (PDict [("studies", PList [study_a]);
                   ("nextPageToken", PStr "p2")]);
    ok_200 (PList [study_bare]) ].


(** ** Facts about the primitives *)

Lemma bind_Ok_inv {A B : Type} (m : res A) (k : A -> res B) (b : B) :
  bind m k = Ok b -> exists a, m = Ok a /\ k a = Ok b.
Proof. destruct m as [a|e]; simpl; [eauto | discriminate]. Qed.

Lemma py_get_Ok_inv v k dflt x :
  py_get v k dflt = Ok x ->
  exists d, v = PDict d /\
            x = match Dict.get k d with Some y => y | None => dflt end.
Proof.
  destruct v; simpl; try discriminate.
  intros H. exists d. split; [reflexivity|].
  destruct (Dict.get k d); congruence.
Qed.

Lemma py_get_field_or v k dflt x :
  py_get v k dflt = Ok x -> x = field_or k dflt v.
Proof.
  intros H. apply py_get_Ok_inv in H as (d & -> & ->). reflexivity.
Qed.

(** A section that is looked up with the empty dictionary as default
    keeps a missing path missing. *)
Lemma py_get_missing_section v k x k' path :
  py_get v k empty_dict = Ok x ->
  lookup_path (k :: k' :: path) v = None ->
  lookup_path (k' :: path) x = None.
Proof.
  intros H Hm. apply py_get_Ok_inv in H as (d & -> & ->).
  simpl in Hm. destruct (Dict.get k d); [exact Hm | reflexivity].
Qed.

Lemma py_get_missing_leaf v k dflt x :
  py_get v k dflt = Ok x -> lookup_path [k] v = None -> x = dflt.
Proof.
  intros H Hm. apply py_get_Ok_inv in H as (d & -> & ->).
  simpl in Hm. destruct (Dict.get k d); [discriminate | reflexivity].
Qed.

Lemma py_get_found v k dflt x path y :
  py_get v k dflt = Ok x ->
  lookup_path (k :: path) v = Some y ->
  lookup_path path x = Some y.
Proof.
  intros H Hf. apply py_get_Ok_inv in H as (d & -> & ->).
  simpl in Hf. destruct (Dict.get k d); [exact Hf | discriminate].
Qed.

Lemma comprehension_Ok (f : pyval -> res pyval) (g : pyval -> pyval) items :
  (forall x y, f x = Ok y -> y = g x) ->
  forall ys, comprehension f items = Ok ys -> ys = map g items.
Proof.
  intros Hfg. induction items as [|x rest IH]; simpl; intros ys H.
  - congruence.
  - apply bind_Ok_inv in H as (y & Hy & H).
    apply bind_Ok_inv in H as (ys' & Hys & H).
    injection H as <-. rewrite (Hfg _ _ Hy), (IH _ Hys). reflexivity.
Qed.

Lemma list_comp_Ok (f : pyval -> res pyval) (g : pyval -> pyval) v out :
  (forall x y, f x = Ok y -> y = g x) ->
  list_comp f v = Ok out ->
  exists items, py_iter v = Ok items /\ out = PList (map g items).
Proof.
  intros Hfg H. unfold list_comp in H.
  apply bind_Ok_inv in H as (items & Hit & H).
  apply bind_Ok_inv in H as (ys & Hys & H).
  injection H as <-. exists items. split; [exact Hit|].
  rewrite (comprehension_Ok f g items Hfg ys Hys). reflexivity.
Qed.

(** Inverting a successful sequence of bindings, one at a time. *)
Ltac bind_inv H :=
  let x := fresh "x" in
  let Hx := fresh "Hx" in
  apply bind_Ok_inv in H as (x & Hx & H).

Lemma comprehension_app (f : pyval -> res pyval) xs ys :
  comprehension f (xs ++ ys)
  = (let* xs' := comprehension f xs in
     let* ys' := comprehension f ys in
     Ok (xs' ++ ys')).
Proof.
  induction xs as [|x xs IH]; simpl.
  - destruct (comprehension f ys); reflexivity.
  - destruct (f x) as [y|]; simpl; [|reflexivity]. rewrite IH.
    destruct (comprehension f xs) as [xs'|]; simpl; [|reflexivity].
    destruct (comprehension f ys); reflexivity.
Qed.

(** Inverting a successful run of the [try] block of the projection. *)
Ltac invert_body H :=
  unfold extract_body in H;
  match type of H with
  | context [identification ?r] =>
      let Hid := fresh "Hid" in
      destruct (identification r) as [[[? ?] ?]|] eqn:Hid;
      [|discriminate H];
      unfold identification in Hid; repeat bind_inv Hid;
      injection Hid as <- <- <-;
      unfold projection in H; repeat bind_inv H
  end.

Lemma except_handler_printable v :
  except_handler v
  = if printable v then Ok PNone else Raise UnicodeEncodeError.
Proof.
  unfold except_handler, printable, print_value.
  destruct v; try reflexivity. destruct (encodable s); reflexivity.
Qed.

Section ProjectorFacts.

Variable py_str : pyval -> string.

(** [str] of a string is the string itself. *)
Hypothesis py_str_PStr : forall s, py_str (PStr s) = s.

Lemma location_string_Ok loc y :
  location_string py_str loc = Ok y ->
  y = PStr (part py_str "city" loc ++ ", " ++ part py_str "country" loc).
Proof.
  unfold location_string. intros H.
  bind_inv H. bind_inv H. injection H as <-.
  apply py_get_Ok_inv in Hx as (d & -> & ->).
  apply py_get_Ok_inv in Hx0 as (d' & [= <-] & ->).
  unfold part, N_A.
  destruct (Dict.get "city" d), (Dict.get "country" d);
    rewrite ?py_str_PStr; reflexivity.
Qed.

(** The function returns what the [try] block returns, and runs the
    handler when that block raises. *)
Lemma extract_unfold raw :
  _extract_study_data py_str raw
  = match extract_body py_str raw with
    | Ok extracted_info => Ok extracted_info
    | Raise _ => except_handler (diagnostic_id raw)
    end.
Proof.
  unfold _extract_study_data, extract_body, diagnostic_id.
  destruct (identification raw) as [[[protocol id_module] nct_id]|];
    reflexivity.
Qed.

Lemma extract_body_PDict raw out :
  extract_body py_str raw = Ok out -> exists rec, out = PDict rec.
Proof. intros H. invert_body H. injection H as <-. eauto. Qed.

(** The projection returns a dictionary, or the [try] block raised and
    the handler ran. *)
Lemma extract_cases raw :
  (navigation_fails py_str raw /\
   _extract_study_data py_str raw = except_handler (diagnostic_id raw)) \/
  (exists rec,
      _extract_study_data py_str raw = Ok (PDict rec) /\
      extract_body py_str raw = Ok (PDict rec)).
Proof.
  rewrite extract_unfold. unfold navigation_fails.
  destruct (extract_body py_str raw) as [out|e] eqn:E; [right | left; eauto].
  destruct (extract_body_PDict raw out E) as (rec & ->). eauto.
Qed.

Lemma extract_PDict_body raw rec :
  _extract_study_data py_str raw = Ok (PDict rec) ->
  extract_body py_str raw = Ok (PDict rec).
Proof.
  intros H. destruct (extract_cases raw) as [(_ & E) | (rec' & E & Hb)].
  - rewrite E, except_handler_printable in H.
    destruct (printable (diagnostic_id raw)); discriminate.
  - congruence.
Qed.

(** What the function returns is [None] or one of these dictionaries. *)
Lemma extract_Ok_cases raw v :
  _extract_study_data py_str raw = Ok v ->
  (v = PNone /\ navigation_fails py_str raw) \/
  (exists rec, v = PDict rec /\ extract_body py_str raw = Ok (PDict rec)).
Proof.
  intros H. destruct (extract_cases raw) as [(Hn & E) | (rec & E & Hb)].
  - left. rewrite E, except_handler_printable in H.
    destruct (printable (diagnostic_id raw)); [|discriminate].
    injection H as <-. auto.
  - right. exists rec. split; congruence.
Qed.

Lemma truthy_extract raw v :
  _extract_study_data py_str raw = Ok v ->
  (truthy v = true <-> v <> PNone).
Proof.
  intros H.
  destruct (extract_Ok_cases raw v H) as [(-> & _) | (rec & -> & Hb)].
  - simpl. split; congruence.
  - split; [discriminate|]. intros _.
    invert_body Hb. injection Hb as <-. reflexivity.
Qed.

(** The [for] loop keeps, in order, the projections that are truthy, and
    raises what the first projection that raises does. *)
Lemma extract_each_filter studies acc :
  extract_each py_str studies acc
  = (let* ys := comprehension (_extract_study_data py_str) studies in
     Ok (acc ++ List.filter truthy ys)).
Proof.
  revert acc. induction studies as [|raw rest IH]; intros acc; simpl.
  - rewrite app_nil_r. reflexivity.
  - destruct (_extract_study_data py_str raw) as [y|]; simpl; [|reflexivity].
    destruct (truthy y) eqn:Ht; rewrite IH;
      destruct (comprehension (_extract_study_data py_str) rest);
      simpl; rewrite ?Ht; try reflexivity.
    rewrite <- app_assoc. reflexivity.
Qed.

Lemma page_records_list d studies :
  Dict.get "studies" d = Some (PList studies) ->
  page_records py_str (PDict d)
  = (let* ys := comprehension (_extract_study_data py_str) studies in
     Ok (List.filter truthy ys)).
Proof.
  intros H. unfold page_records, page_studies, py_get. rewrite H. simpl.
  apply extract_each_filter.
Qed.

Lemma extract_absent d :
  Dict.get "protocolSection" d = None ->
  _extract_study_data py_str (PDict d) = Ok all_defaults.
Proof.
  intros H. unfold _extract_study_data, identification. simpl. rewrite H.
  reflexivity.
Qed.

(** A record on which navigation fails and whose diagnostic line can be
    printed projects to [None]. *)
Lemma extract_fails raw :
  navigation_fails py_str raw ->
  printable (diagnostic_id raw) = true ->
  _extract_study_data py_str raw = Ok PNone.
Proof.
  intros [e He] Hp. rewrite extract_unfold, He, except_handler_printable, Hp.
  reflexivity.
Qed.

(** A list derived from the entries found at [k1], [k2]. *)
Lemma derived_list raw protocol section found k1 k2 f g out :
  py_get raw "protocolSection" empty_dict = Ok protocol ->
  py_get protocol k1 empty_dict = Ok section ->
  py_get section k2 empty_list = Ok found ->
  (forall x y, f x = Ok y -> y = g x) ->
  list_comp f found = Ok out ->
  out = PList (map g (entries [k1; k2] raw)).
Proof.
  intros H1 H2 H3 Hfg Hout. unfold entries.
  destruct (lookup_path ["protocolSection"; k1; k2] raw) as [v|] eqn:E.
  - apply (py_get_found _ _ _ _ _ _ H1) in E.
    apply (py_get_found _ _ _ _ _ _ H2) in E.
    apply (py_get_found _ _ _ _ _ _ H3) in E.
    injection E as ->.
    destruct (list_comp_Ok f g _ _ Hfg Hout) as (items & -> & ->).
    reflexivity.
  - apply (py_get_missing_section _ _ _ _ _ H1) in E.
    apply (py_get_missing_section _ _ _ _ _ H2) in E.
    apply (py_get_missing_leaf _ _ _ _ H3) in E. subst found.
    destruct (list_comp_Ok f g _ _ Hfg Hout) as (items & [= <-] & ->).
    reflexivity.
Qed.

(** Pushing a missing path through the lookups of the [try] block. *)
Ltac chase Hm :=
  repeat match goal with
    | Hg : py_get ?v ?k empty_dict = Ok _ |- _ =>
        match type of Hm with
        | lookup_path (k :: _ :: _) v = None =>
            apply (py_get_missing_section _ _ _ _ _ Hg) in Hm
        end
    | Hg : py_get ?v ?k _ = Ok _ |- _ =>
        match type of Hm with
        | lookup_path [k] v = None =>
            apply (py_get_missing_leaf _ _ _ _ Hg) in Hm
        end
    end.

(** C2 (as amended): a record on which navigation fails, whatever the
    place where it does, and whose diagnostic line can be printed, makes
    the projection return [None]; the page that holds it yields exactly
    what it would yield without that record, which is, when the other
    records project to [others], the truthy ones among [others] in order.
    A record in which [protocolSection] is absent is not a failure: it
    projects to the record of defaults, which is kept. *)
Theorem failing_record_isolated d d' before bad after :
  navigation_fails py_str bad ->
  printable (diagnostic_id bad) = true ->
  Dict.get "studies" d = Some (PList (before ++ bad :: after)) ->
  Dict.get "studies" d' = Some (PList (before ++ after)) ->
  _extract_study_data py_str bad = Ok PNone /\
  page_records py_str (PDict d) = page_records py_str (PDict d') /\
  (forall others,
      comprehension (_extract_study_data py_str) (before ++ after)
      = Ok others ->
      page_records py_str (PDict d) = Ok (List.filter truthy others)) /\
  (forall record,
      Dict.get "protocolSection" record = None ->
      _extract_study_data py_str (PDict record) = Ok all_defaults /\
      truthy all_defaults = true).
Proof.
  intros Hbad Hprint Hd Hd'.
  pose proof (extract_fails bad Hbad Hprint) as E.
  assert (page_records py_str (PDict d) = page_records py_str (PDict d'))
    as Hsame.
  { rewrite (page_records_list _ _ Hd), (page_records_list _ _ Hd').
    rewrite !comprehension_app. simpl. rewrite E. simpl.
    destruct (comprehension (_extract_study_data py_str) before) as [xs|];
      simpl; [|reflexivity].
    destruct (comprehension (_extract_study_data py_str) after) as [ys|];
      simpl; [|reflexivity].
    rewrite !List.filter_app. reflexivity. }
  split; [exact E|]. split; [exact Hsame|]. split.
  - intros others Ho. rewrite Hsame, (page_records_list _ _ Hd'), Ho.
    reflexivity.
  - intros record H. split; [apply extract_absent; exact H | reflexivity].
Qed.

(** C7: on a record that projects successfully, each missing string
    field is reported as "Not Available", each missing list field as the
    empty list, and a missing enrollment count as [None], which is not
    the integer zero. *)
Theorem missing_fields_default raw rec :
  _extract_study_data py_str raw = Ok (PDict rec) ->
  (forall key path dflt,
      In (key, path, dflt) field_defaults ->
      missing path raw ->
      Dict.get key rec = Some dflt) /\
  PNone <> PInt 0.
Proof.
  intros H. split; [|discriminate].
  apply extract_PDict_body in H. invert_body H. injection H as <-.
  intros key path dflt Hin Hm. unfold missing in Hm.
  simpl in Hin.
  repeat (destruct Hin as [Hin|Hin];
          [injection Hin as <- <- <-; chase Hm; subst;
           repeat match goal with
             | Hc : list_comp _ empty_list = Ok _ |- _ =>
                 simpl in Hc; injection Hc as <-
             end;
           reflexivity
          |]).
  contradiction.
Qed.

(** C8: on a record that projects successfully, the interventions are
    the names of the intervention entries in order, the primary outcome
    measures are the measures of the outcome entries in order, each with
    "N/A" where the entry has none, and the locations are the strings
    "city, country" of the location entries in order, with "N/A" for a
    part the entry lacks; "N/A" is not "Not Available". *)
Theorem derived_lists raw rec :
  _extract_study_data py_str raw = Ok (PDict rec) ->
  Dict.get "Interventions" rec
  = Some (PList (map (field_or "name" (PStr "N/A"))
                     (entries ["armsInterventionsModule"; "interventions"]
                              raw))) /\
  Dict.get "Primary Outcome Measures" rec
  = Some (PList (map (field_or "measure" (PStr "N/A"))
                     (entries ["outcomesModule"; "primaryOutcomes"] raw))) /\
  Dict.get "Locations" rec
  = Some (PList (map (fun loc =>
                        PStr (part py_str "city" loc ++ ", "
                                ++ part py_str "country" loc))
                     (entries ["contactsLocationsModule"; "locations"]
                              raw))) /\
  PStr "N/A" <> PStr "Not Available".
Proof.
  intros H. apply extract_PDict_body in H. invert_body H.
  injection H as <-. simpl.
  repeat split; try discriminate; f_equal.
  all: eapply derived_list;
    [eassumption | eassumption | eassumption | | eassumption].
  - intros entry y. apply py_get_field_or.
  - intros entry y. apply py_get_field_or.
  - intros entry y. apply location_string_Ok.
Qed.

(** C9: every successful projection has the same fifteen keys in the
    same order. *)
Theorem extracted_keys_fixed raw rec :
  _extract_study_data py_str raw = Ok (PDict rec) ->
  Dict.keys rec = output_keys.
Proof.
  intros H. apply extract_PDict_body in H. invert_body H.
  injection H as <-. reflexivity.
Qed.

End ProjectorFacts.

(** ** Facts about the query runner *)

Lemma comprehension_length (f : pyval -> res pyval) items ys :
  comprehension f items = Ok ys -> length ys = length items.
Proof.
  revert ys. induction items as [|x rest IH]; simpl; intros ys H.
  - injection H as <-. reflexivity.
  - bind_inv H. bind_inv H. injection H as <-. simpl. f_equal. eauto.
Qed.

Lemma attempt_Json rp data :
  attempt rp = Json data <-> try_block rp = Ok data.
Proof.
  unfold attempt. destruct (try_block rp) as [x|e].
  - split; congruence.
  - destruct (is_RequestException e || is_JSONDecodeError e);
      split; discriminate.
Qed.

Section RunnerFacts.

Variable py_str : pyval -> string.
Variable server : nat -> dict -> reply.
Variable max_pages : Z.
Variable l : loc.

Abbreviation body := (loop_body py_str server max_pages l).
Abbreviation go := (runs py_str server max_pages l).

Lemma page_records_is_dict data extracted :
  page_records py_str data = Ok extracted -> exists d, data = PDict d.
Proof.
  unfold page_records, page_studies. intros H.
  bind_inv H. bind_inv Hx.
  apply py_get_Ok_inv in Hx0 as (d & -> & _). eauto.
Qed.

Lemma page_records_length data extracted :
  page_records py_str data = Ok extracted ->
  exists studies,
    page_studies data = Ok studies /\
    (length extracted <= length studies)%nat.
Proof.
  unfold page_records. intros H. bind_inv H.
  exists x. split; [assumption|].
  rewrite extract_each_filter in H. bind_inv H. injection H as <-.
  simpl. rewrite <- (comprehension_length _ _ _ Hx0).
  apply List.filter_length_le.
Qed.

(** The loop function computes a run of the relation. *)
Lemma loop_runs fuel st r :
  loop py_str server fuel max_pages l st = Some r ->
  exists sent,
    requests r = st_requests st ++ sent /\
    go st sent (result r) (final_heap r).
Proof.
  revert st. induction fuel as [|fuel IH]; intros st; simpl; [discriminate|].
  unfold loop_body, stop.
  destruct (Z.gtb_spec (current_page st + 1) max_pages) as [Hgt|Hle].
  { intros [= <-]. exists []. simpl. rewrite app_nil_r.
    split; [reflexivity|]. apply runs_limit. lia. }
  destruct (st_heap st !! l) as [params|] eqn:Hl; [|discriminate].
  destruct (attempt (server (length (st_requests st)) params))
    as [e|e|data] eqn:Hs.
  { intros [= <-]. eexists. split; [reflexivity|]. simpl.
    eapply runs_caught; eauto. }
  { intros [= <-]. eexists. split; [reflexivity|]. simpl.
    eapply runs_escaped; eauto. }
  destruct (page_records py_str data) as [extracted|e] eqn:Hp.
  2: { intros [= <-]. eexists. split; [reflexivity|]. simpl.
       eapply runs_raised; eauto. }
  destruct (page_records_is_dict _ _ Hp) as (d & ->).
  destruct (py_get (PDict d) "nextPageToken" PNone) as [token|e] eqn:Ht.
  2: { simpl in Ht. destruct (Dict.get "nextPageToken" d); discriminate. }
  destruct (truthy token) eqn:Htr.
  - intros H. apply IH in H as (sent & Hreq & Hgo). simpl in Hreq.
    exists ((params, Json (PDict d)) :: sent). split.
    + rewrite Hreq, <- app_assoc. reflexivity.
    + eapply runs_next; eauto.
  - intros [= <-]. eexists. split; [reflexivity|]. simpl.
    eapply runs_last; eauto.
Qed.

(** With more fuel than pages left, the loop function returns. *)
Lemma loop_total fuel st :
  is_Some (st_heap st !! l) ->
  (Z.to_nat (max_pages - current_page st) < fuel)%nat ->
  is_Some (loop py_str server fuel max_pages l st).
Proof.
  revert st. induction fuel as [|fuel IH]; intros st [params Hl] Hfuel;
    [lia|].
  simpl. unfold loop_body, stop.
  destruct (Z.gtb_spec (current_page st + 1) max_pages) as [Hgt|Hle]; [eauto|].
  rewrite Hl.
  destruct (attempt (server (length (st_requests st)) params))
    as [e|e|data]; eauto.
  destruct (page_records py_str data) as [extracted|]; eauto.
  destruct (py_get data "nextPageToken" PNone) as [token|]; eauto.
  destruct (truthy token); eauto.
  apply IH; simpl.
  - rewrite lookup_insert_eq. eauto.
  - lia.
Qed.

(** *** Inversion of a run on what the next turn sees *)

Lemma runs_at_limit st sent o h :
  (current_page st + 1 > max_pages)%Z ->
  go st sent o h ->
  sent = [] /\ o = Return (all_extracted_studies st) /\ h = st_heap st.
Proof. intros Hgt Hgo. destruct Hgo; try lia. auto. Qed.

(** Below the page limit, the next request is issued. *)
Lemma runs_issues_request st params sent o h :
  (current_page st + 1 <= max_pages)%Z ->
  st_heap st !! l = Some params ->
  go st sent o h ->
  exists rest,
    sent = (params, attempt (server (length (st_requests st)) params))
             :: rest.
Proof.
  intros Hle Hl Hgo.
  destruct Hgo as [st Hgt | st p e ? Hl' Hs | st p e ? Hl' Hs
                  | st p data e ? Hl' Hs Hp
                  | st p data ex tk ? Hl' Hs Hp Ht Htr
                  | st p data ex tk sent o h ? Hl' Hs Hp Ht Htr Hgo];
    try lia; rewrite Hl in Hl'; injection Hl' as <-; rewrite Hs; eauto.
Qed.


Lemma runs_on_raising_page st params data e sent o h :
  (current_page st + 1 <= max_pages)%Z ->
  st_heap st !! l = Some params ->
  attempt (server (length (st_requests st)) params) = Json data ->
  page_records py_str data = Raise e ->
  go st sent o h ->
  sent = [(params, Json data)] /\ o = Raised e /\ h = st_heap st.
Proof.
  intros Hle Hl Hs Hp Hgo.
  destruct Hgo as [st Hgt | st p e' ? Hl' Hs' | st p e' ? Hl' Hs'
                  | st p d' e' ? Hl' Hs' Hp'
                  | st p d' ex tk ? Hl' Hs' Hp' Ht' Htr'
                  | st p d' ex tk sent o h ? Hl' Hs' Hp' Ht' Htr' Hgo];
    try lia; rewrite Hl in Hl'; injection Hl' as <-;
    rewrite Hs in Hs'; try discriminate Hs'; injection Hs' as <-;
    rewrite Hp in Hp'; try discriminate Hp'.
  injection Hp' as <-. auto.
Qed.

Lemma runs_on_last_page st params data extracted token sent o h :
  (current_page st + 1 <= max_pages)%Z ->
  st_heap st !! l = Some params ->
  attempt (server (length (st_requests st)) params) = Json data ->
  page_records py_str data = Ok extracted ->
  py_get data "nextPageToken" PNone = Ok token ->
  truthy token = false ->
  go st sent o h ->
  sent = [(params, Json data)] /\
  o = Return (all_extracted_studies st ++ extracted) /\ h = st_heap st.
Proof.
  intros Hle Hl Hs Hp Ht Htr Hgo.
  destruct Hgo as [st Hgt | st p e' ? Hl' Hs' | st p e' ? Hl' Hs'
                  | st p d' e' ? Hl' Hs' Hp'
                  | st p d' ex tk ? Hl' Hs' Hp' Ht' Htr'
                  | st p d' ex tk sent o h ? Hl' Hs' Hp' Ht' Htr' Hgo];
    try lia; rewrite Hl in Hl'; injection Hl' as <-;
    rewrite Hs in Hs'; try discriminate Hs'; injection Hs' as <-;
    rewrite Hp in Hp'; try discriminate Hp'; injection Hp' as <-.
  - auto.
  - congruence.
Qed.

Lemma runs_on_next_page st params data extracted token sent o h :
  (current_page st + 1 <= max_pages)%Z ->
  st_heap st !! l = Some params ->
  attempt (server (length (st_requests st)) params) = Json data ->
  page_records py_str data = Ok extracted ->
  py_get data "nextPageToken" PNone = Ok token ->
  truthy token = true ->
  go st sent o h ->
  exists sent',
    sent = (params, Json data) :: sent' /\
    go (mk_state (<[l := Dict.set "pageToken" token params]> (st_heap st))
                 (st_requests st ++ [(params, Json data)])
                 (all_extracted_studies st ++ extracted)
                 (current_page st + 1))
       sent' o h.
Proof.
  intros Hle Hl Hs Hp Ht Htr Hgo.
  destruct Hgo as [st Hgt | st p e' ? Hl' Hs' | st p e' ? Hl' Hs'
                  | st p d' e' ? Hl' Hs' Hp'
                  | st p d' ex tk ? Hl' Hs' Hp' Ht' Htr'
                  | st p d' ex tk sent' o h ? Hl' Hs' Hp' Ht' Htr' Hgo];
    try lia; rewrite Hl in Hl'; injection Hl' as <-;
    rewrite Hs in Hs'; try discriminate Hs'; injection Hs' as <-;
    rewrite Hp in Hp'; try discriminate Hp'; injection Hp' as <-.
  - congruence.
  - rewrite Ht in Ht'. injection Ht' as <-. eauto.
Qed.

(** *** Invariants of a run *)

(** Only the working dictionary is written. *)
Lemma runs_frame st sent o h :
  go st sent o h -> forall l', l' <> l -> h !! l' = st_heap st !! l'.
Proof.
  induction 1 as [| | | | |st params data extracted token sent o h
                            _ _ _ _ _ _ _ IH]; intros l' Hne;
    try reflexivity.
  rewrite (IH l' Hne). simpl. apply lookup_insert_ne. congruence.
Qed.

(** A run never returns anything but the records of its exchanges. *)
Lemma runs_result st sent o h :
  go st sent o h ->
  forall v,
    o = Return v ->
    v = all_extracted_studies st ++ flat_map (exchange_records py_str) sent.
Proof.
  induction 1 as [st Hgt | st p e Hle Hl Hs | st p e Hle Hl Hs
                 | st p data e Hle Hl Hs Hp
                 | st p data ex tk Hle Hl Hs Hp Ht Htr
                 | st p data ex tk sent o h Hle Hl Hs Hp Ht Htr Hgo IH];
    intros v Hv; try (injection Hv as <-); try discriminate.
  - simpl. symmetry. apply app_nil_r.
  - simpl. symmetry. apply app_nil_r.
  - unfold exchange_records. simpl. rewrite Hp, app_nil_r. reflexivity.
  - rewrite (IH v Hv). simpl. unfold exchange_records at 2. simpl.
    rewrite Hp, <- app_assoc. reflexivity.
Qed.

(** Every exchange of a run is what came of a request to the service. *)
Lemma runs_answers st sent o h :
  go st sent o h ->
  forall params resp,
    In (params, resp) sent -> exists n, attempt (server n params) = resp.
Proof.
  induction 1 as [st Hgt | st p e Hle Hl Hs | st p e Hle Hl Hs
                 | st p data e Hle Hl Hs Hp
                 | st p data ex tk Hle Hl Hs Hp Ht Htr
                 | st p data ex tk sent o h Hle Hl Hs Hp Ht Htr Hgo IH];
    intros params resp Hin; simpl in Hin.
  - contradiction.
  - destruct Hin as [[= <- <-]|[]]. eauto.
  - destruct Hin as [[= <- <-]|[]]. eauto.
  - destruct Hin as [[= <- <-]|[]]. eauto.
  - destruct Hin as [[= <- <-]|[]]. eauto.
  - destruct Hin as [[= <- <-]|Hin]; eauto.
Qed.

(** If no page of the run is larger than [page_size], a returned list has
    at most [page_size] records per decoded page. *)
Lemma runs_length page_size st sent o h :
  go st sent o h ->
  forall v,
    o = Return v ->
    (forall params data studies,
        In (params, Json data) sent ->
        page_studies data = Ok studies ->
        (Z.of_nat (length studies) <= page_size)%Z) ->
    (Z.of_nat (length v)
     <= Z.of_nat (length (all_extracted_studies st))
        + Z.of_nat (length (List.filter is_page sent)) * page_size)%Z.
Proof.
  induction 1 as [st Hgt | st p e Hle Hl Hs | st p e Hle Hl Hs
                 | st p data e Hle Hl Hs Hp
                 | st p data ex tk Hle Hl Hs Hp Ht Htr
                 | st p data ex tk sent o h Hle Hl Hs Hp Ht Htr Hgo IH];
    intros v Hv Hsize; try discriminate.
  - injection Hv as <-. simpl. lia.
  - injection Hv as <-. simpl. lia.
  - injection Hv as <-. simpl.
    destruct (page_records_length _ _ Hp) as (studies & Hst & Hlen).
    pose proof (Hsize p data studies ltac:(left; reflexivity) Hst).
    rewrite length_app. lia.
  - assert (Z.of_nat (length v)
            <= Z.of_nat (length (all_extracted_studies st ++ ex))
               + Z.of_nat (length (List.filter is_page sent)) * page_size)%Z
      as Hlen'.
    { apply (IH v Hv). intros params d' studies Hin Hst'.
      apply (Hsize params d' studies); [right; exact Hin | exact Hst']. }
    destruct (page_records_length _ _ Hp) as (studies & Hst & Hlen).
    pose proof (Hsize p data studies ltac:(left; reflexivity) Hst).
    rewrite length_app in Hlen'. simpl. lia.
Qed.

(** Pages that the service delivers in a row are fetched, as long as the
    page limit allows, and the run goes on from the state they lead to. *)
Lemma runs_delivers n params pages params' :
  delivers py_str server n params pages params' ->
  forall st sent o h,
    n = length (st_requests st) ->
    st_heap st !! l = Some params ->
    (current_page st + Z.of_nat (length pages) <= max_pages)%Z ->
    go st sent o h ->
    exists st' sent',
      sent = pages ++ sent' /\
      go st' sent' o h /\
      st_heap st' !! l = Some params' /\
      st_requests st' = st_requests st ++ pages /\
      all_extracted_studies st'
      = all_extracted_studies st ++ flat_map (exchange_records py_str) pages /\
      current_page st' = (current_page st + Z.of_nat (length pages))%Z.
Proof.
  induction 1 as [n params
                 | n params data ex tk pages params' Hs Hp Ht Htr Hd IH];
    intros st sent o h Hn Hl Hcp Hgo.
  - exists st, sent. simpl. rewrite !app_nil_r.
    repeat split; try assumption. lia.
  - subst n. simpl in Hcp.
    destruct (runs_on_next_page st params data ex tk sent o h
                ltac:(lia) Hl Hs Hp Ht Htr Hgo) as (sent1 & -> & Hgo1).
    apply IH in Hgo1 as (st' & sent' & -> & Hgo' & Hl' & Hr' & Ha' & Hc');
      [ | simpl; rewrite length_app; simpl; lia
        | simpl; apply lookup_insert_eq
        | simpl; lia ].
    assert (exchange_records py_str (params, Json data) = ex) as He
        by (unfold exchange_records; simpl; rewrite Hp; reflexivity).
    simpl in Hr', Ha', Hc'.
    exists st', sent'. repeat split; try assumption.
    + rewrite Hr', <- app_assoc. reflexivity.
    + rewrite Ha'. cbn [flat_map]. rewrite He, <- app_assoc. reflexivity.
    + rewrite Hc'. cbn [length]. lia.
Qed.

End RunnerFacts.

(** Side conditions of a turn on a page given by its dictionary. *)
Ltac page_side Hs Ht :=
  simpl;
  first [ lia
        | apply lookup_insert_eq
        | eassumption
        | rewrite (page_records_list _ _ _ Hs); simpl;
          match goal with H : comprehension _ _ = Ok _ |- _ => rewrite H end;
          reflexivity
        | rewrite Ht; reflexivity
        | reflexivity ].

(** ** The properties of the specification: the query runner *)

Section FetchFacts.

Variable py_str : pyval -> string.
Variable server : nat -> dict -> reply.

(** The state in which the loop is entered. *)
Abbreviation entry h q page_size :=
  (mk_state (<[fresh (dom h) := Dict.set "pageSize" (PInt page_size) q]> h)
            [] [] 0%Z).

(** [fetch_all_trials] returns or raises, and what it does is a run of
    the loop on a fresh working copy of the caller's dictionary. *)
Lemma fetch_runs (h : heap) qp q max_pages page_size :
  h !! qp = Some q ->
  exists r,
    fetch_all_trials py_str server h qp max_pages page_size = Some r /\
    runs py_str server max_pages (fresh (dom h)) (entry h q page_size)
         (requests r) (result r) (final_heap r).
Proof.
  intros Hq. unfold fetch_all_trials. rewrite Hq, insert_insert_eq.
  destruct (loop_total py_str server max_pages (fresh (dom h))
              (S (Z.to_nat max_pages)) (entry h q page_size)) as [r Hr].
  - simpl. rewrite lookup_insert_eq. eauto.
  - simpl. lia.
  - exists r. split; [exact Hr|].
    apply loop_runs in Hr as (sent & Hreq & Hgo).
    simpl in Hreq. rewrite Hreq. exact Hgo.
Qed.

Lemma fresh_not_allocated (h : heap) l' d :
  h !! l' = Some d -> l' <> fresh (dom h).
Proof.
  intros Hl' ->. apply (is_fresh (dom h)). apply elem_of_dom. eauto.
Qed.

(** The pages delivered from the first request on are fetched. *)
Lemma fetch_delivers (h : heap) qp q max_pages page_size pages params :
  h !! qp = Some q ->
  delivers py_str server 0 (Dict.set "pageSize" (PInt page_size) q)
           pages params ->
  (Z.of_nat (length pages) <= max_pages)%Z ->
  exists r st sent,
    fetch_all_trials py_str server h qp max_pages page_size = Some r /\
    requests r = pages ++ sent /\
    runs py_str server max_pages (fresh (dom h)) st sent
         (result r) (final_heap r) /\
    st_heap st !! fresh (dom h) = Some params /\
    st_requests st = pages /\
    all_extracted_studies st = flat_map (exchange_records py_str) pages /\
    current_page st = Z.of_nat (length pages).
Proof.
  intros Hq Hd Hlen.
  destruct (fetch_runs h qp q max_pages page_size Hq) as (r & Hr & Hgo).
  destruct (runs_delivers py_str server max_pages (fresh (dom h))
              _ _ _ _ Hd (entry h q page_size) _ _ _
              eq_refl (lookup_insert_eq _ _ _) ltac:(simpl; lia) Hgo)
    as (st & sent & Hreq & Hgo' & Hl & Hr' & Ha & Hc).
  exists r, st, sent. simpl in *. repeat split; first [assumption | lia].
Qed.


(** C5 (as amended): when a call returns and no page fetched in that run
    carries more than [page_size] raw records, the list returned has at
    most [page_size] records per page that was fetched and decoded; its
    length is never negative. *)
Theorem length_bounded (h : heap) qp q max_pages page_size :
  h !! qp = Some q ->
  exists r,
    fetch_all_trials py_str server h qp max_pages page_size = Some r /\
    forall v,
      result r = Return v ->
      (forall params data studies,
          In (params, Json data) (requests r) ->
          page_studies data = Ok studies ->
          (Z.of_nat (length studies) <= page_size)%Z) ->
      (0 <= Z.of_nat (length v)
       <= Z.of_nat (pages_fetched r) * page_size)%Z.
Proof.
  intros Hq.
  destruct (fetch_runs h qp q max_pages page_size Hq) as (r & Hr & Hgo).
  exists r. split; [exact Hr|]. intros v Hv Hsize.
  pose proof (runs_length _ _ _ _ _ _ _ _ _ Hgo v Hv Hsize) as Hlen.
  simpl in Hlen. unfold pages_fetched. lia.
Qed.

(** C6: the call works on a copy; when it returns, the caller's query
    dictionary, like every dictionary that existed before the call, is
    what it was, so it has gained neither [pageSize] nor [pageToken]. *)
Theorem caller_query_untouched (h : heap) qp q max_pages page_size :
  h !! qp = Some q ->
  exists r,
    fetch_all_trials py_str server h qp max_pages page_size = Some r /\
    final_heap r !! qp = Some q /\
    (forall l' d, h !! l' = Some d -> final_heap r !! l' = Some d).
Proof.
  intros Hq.
  destruct (fetch_runs h qp q max_pages page_size Hq) as (r & Hr & Hgo).
  exists r. split; [exact Hr|].
  assert (forall l' d, h !! l' = Some d -> final_heap r !! l' = Some d)
    as Hframe.
  { intros l' d Hl'. pose proof (fresh_not_allocated _ _ _ Hl') as Hne.
    rewrite (runs_frame _ _ _ _ _ _ _ _ Hgo l' Hne). simpl.
    rewrite lookup_insert_ne; [exact Hl' | congruence]. }
  split; [apply Hframe; exact Hq | exact Hframe].
Qed.

(** C10: a page without studies (the list empty or the key absent) that
    carries a token, fetched after pages that were processed without an
    exception, adds no record and does not end the call: as long as the
    page limit is not reached the next request is issued, with that
    token, and what is returned comes from the other exchanges; at the
    page limit the call returns the records of the pages before. *)
Theorem empty_page_continues (h : heap) qp q max_pages page_size
        before params d token :
  h !! qp = Some q ->
  delivers py_str server 0 (Dict.set "pageSize" (PInt page_size) q)
           before params ->
  (Z.of_nat (length before) < max_pages)%Z ->
  attempt (server (length before) params) = Json (PDict d) ->
  Dict.get "studies" d = None \/ Dict.get "studies" d = Some (PList []) ->
  Dict.get "nextPageToken" d = Some token ->
  truthy token = true ->
  exists r,
    fetch_all_trials py_str server h qp max_pages page_size = Some r /\
    exchange_records py_str (params, Json (PDict d)) = [] /\
    if (Z.of_nat (length before) + 1 <? max_pages)%Z
    then
      exists rest,
        let next := Dict.set "pageToken" token params in
        let following :=
          (next, attempt (server (S (length before)) next)) :: rest in
        requests r = before ++ (params, Json (PDict d)) :: following /\
        forall v,
          result r = Return v ->
          v = flat_map (exchange_records py_str) (before ++ following)
    else
      requests r = before ++ [(params, Json (PDict d))] /\
      result r = Return (flat_map (exchange_records py_str) before).
Proof.
  intros Hq Hd Hlen Hs Hst Ht Htr.
  assert (page_records py_str (PDict d) = Ok []) as Hp.
  { unfold page_records, page_studies, py_get.
    destruct Hst as [-> | ->]; reflexivity. }
  assert (exchange_records py_str (params, Json (PDict d)) = []) as He
      by (unfold exchange_records; simpl; rewrite Hp; reflexivity).
  destruct (fetch_delivers h qp q max_pages page_size before params
              Hq Hd ltac:(lia))
    as (r & st & sent & Hr & Hreq & Hgo & Hl & Hreqs & Ha & Hc).
  exists r. split; [exact Hr|]. split; [exact He|].
  apply (runs_on_next_page _ _ _ _ st params (PDict d) [] token)
    in Hgo as (sent' & -> & Hgo);
    [ | lia | exact Hl | rewrite Hreqs; exact Hs | exact Hp
      | simpl; rewrite Ht; reflexivity | exact Htr ].
  destruct (Z.ltb_spec (Z.of_nat (length before) + 1) max_pages)
    as [Hmore|Hlimit].
  - pose proof Hgo as Hgo'.
    apply (runs_issues_request _ _ _ _ _
             (Dict.set "pageToken" token params)) in Hgo' as (rest & ->);
      [ | simpl; lia | simpl; apply lookup_insert_eq ].
    assert (length (st_requests st ++ [(params, Json (PDict d))])
            = S (length before)) as Hn
        by (rewrite Hreqs, length_app; simpl; lia).
    simpl in Hgo, Hreq. rewrite Hn in Hgo, Hreq.
    exists rest. cbv zeta. split; [exact Hreq|].
    intros v Hv. rewrite (runs_result _ _ _ _ _ _ _ _ Hgo v Hv).
    cbn [all_extracted_studies]. rewrite Ha, app_nil_r, flat_map_app.
    reflexivity.
  - apply runs_at_limit in Hgo as (-> & Ho & _); [|simpl; lia].
    simpl in Ho. rewrite Hreq, Ho, Ha, app_nil_r. split; reflexivity.
Qed.

End FetchFacts.

(** ** The model on concrete inputs *)

Example project_study_a :
  _extract_study_data str_scalar study_a = Ok (PDict record_a).
Proof. reflexivity. Qed.

Example project_study_bare :
  _extract_study_data str_scalar study_bare = Ok all_defaults.
Proof. reflexivity. Qed.

Example project_study_broken :
  _extract_study_data str_scalar study_broken = Ok PNone.
Proof. reflexivity. Qed.

(** The record fails to project at its status section, after its
    identifier was read; the diagnostic line cannot be written. *)
Example project_study_unprintable :
  diagnostic_id study_unprintable = PStr lone_surrogate /\
  _extract_study_data str_scalar study_unprintable
  = Raise UnicodeEncodeError.
Proof. split; reflexivity. Qed.

(** A record that is not a dictionary at all, and one whose list of
    interventions holds a string, are dropped as well. *)
Example project_not_a_record :
  _extract_study_data str_scalar (PStr "NCT00001") = Ok PNone /\
  _extract_study_data str_scalar
    (PDict [("protocolSection",
             PDict [("armsInterventionsModule",
                     PDict [("interventions", PList [PStr "Metformin"])])])])
  = Ok PNone.
Proof. split; reflexivity. Qed.

(** What the [try] statement makes of some replies. *)
Example attempts :
  attempt (NoResponse ConnectionError) = Caught ConnectionError /\
  attempt (NoResponse Timeout) = Caught Timeout /\
  attempt (HttpResponse 404 (Ok (PDict page_a))) = Caught HTTPError /\
  attempt (HttpResponse 200 (Raise JSONDecodeError)) = Caught JSONDecodeError /\
  attempt (HttpResponse 304 (Ok (PDict page_a))) = Json (PDict page_a) /\
  attempt (HttpResponse 200 (Raise RecursionError)) = Escaped RecursionError /\
  attempt (NoResponse UnicodeEncodeError) = Escaped UnicodeEncodeError.
Proof. repeat split. Qed.

Example fetch_three_pages :
  option_map (fun r => (result r, length (requests r)))
             (fetch_all_trials str_scalar (canned three_pages)
                               caller_heap 1%positive 10 100)
  = Some (Return [PDict record_a; all_defaults], 3%nat).
Proof. vm_compute. reflexivity. Qed.

Example fetch_page_then_error :
  option_map (fun r => (result r, map snd (requests r)))
             (fetch_all_trials str_scalar (canned page_then_error)
                               caller_heap 1%positive 10 100)
  = Some (Return [PDict record_a], [Json (PDict page_a); Caught HTTPError]).
Proof. vm_compute. reflexivity. Qed.

Example fetch_first_request_fails :
  option_map (fun r => (result r, map snd (requests r)))
             (fetch_all_trials str_scalar (canned [])
                               caller_heap 1%positive 10 100)
  = Some (Return [], [Caught ConnectionError]).
Proof. vm_compute. reflexivity. Qed.

Example fetch_no_page_allowed :
  option_map (fun r => (result r, requests r))
             (fetch_all_trials str_scalar (canned three_pages)
                               caller_heap 1%positive 0 100)
  = Some (Return [], []).
Proof. vm_compute. reflexivity. Qed.

(** A body that decodes to something else than an object is not one of
    the failures the loop handles: [data.get] raises out of the call. *)
Example fetch_body_not_an_object :
  option_map result
             (fetch_all_trials str_scalar (canned [ok_200 (PList [])])
                               caller_heap 1%positive 10 100)
  = Some (Raised AttributeError).
Proof. vm_compute. reflexivity. Qed.

(** Nor is a body on which the decoder raises something else than a
    [JSONDecodeError]: the record of the first page is lost. *)
Example fetch_body_too_deep :
  option_map (fun r => (result r, length (requests r)))
             (fetch_all_trials str_scalar (canned page_then_too_deep)
                               caller_heap 1%positive 10 100)
  = Some (Raised RecursionError, 2%nat).
Proof. vm_compute. reflexivity. Qed.

(** The working copy, allocated next to the caller's dictionary, is the
    one that receives [pageSize] and [pageToken]. *)
Example fetch_writes_the_copy :
  option_map (fun r => (final_heap r !! 1%positive, final_heap r !! 2%positive))
             (fetch_all_trials str_scalar (canned page_then_error)
                               caller_heap 1%positive 10 100)
  = Some (Some caller_query, Some query_p2).
Proof. vm_compute. reflexivity. Qed.

(** ** Instances of the theorems, and the inputs on which sentences of
    the specification fail *)



(** C2, as first stated, fails on a record without [protocolSection]:
    its projection is the record of defaults, not a failure. *)
Lemma absent_protocol_section_is_no_failure :
  missing [] study_bare /\
  _extract_study_data str_scalar study_bare = Ok all_defaults /\
  all_defaults <> PNone.
Proof. repeat split. discriminate. Qed.

Lemma failing_record_isolated_witness :
  navigation_fails str_scalar study_null_status /\
  printable (diagnostic_id study_null_status) = true /\
  Dict.get "studies"
           [("studies", PList ([study_a] ++ study_null_status :: [study_bare]))]
  = Some (PList ([study_a] ++ study_null_status :: [study_bare])) /\
  Dict.get "studies" [("studies", PList ([study_a] ++ [study_bare]))]
  = Some (PList ([study_a] ++ [study_bare])) /\
  _extract_study_data str_scalar study_null_status = Ok PNone /\
  page_records str_scalar
    (PDict [("studies",
             PList ([study_a] ++ study_null_status :: [study_bare]))])
  = Ok [PDict record_a; all_defaults] /\
  (forall others,
      comprehension (_extract_study_data str_scalar)
                    ([study_a] ++ [study_bare]) = Ok others ->
      page_records str_scalar
        (PDict [("studies",
                 PList ([study_a] ++ study_null_status :: [study_bare]))])
      = Ok (List.filter truthy others)) /\
  (forall record,
      Dict.get "protocolSection" record = None ->
      _extract_study_data str_scalar (PDict record) = Ok all_defaults /\
      truthy all_defaults = true).
Proof.
  assert (navigation_fails str_scalar study_null_status) as Hn
      by (exists AttributeError; reflexivity).
  split; [exact Hn|]. split; [reflexivity|]. split; [reflexivity|].
  split; [reflexivity|].
  exact (failing_record_isolated str_scalar
           [("studies", PList ([study_a] ++ study_null_status :: [study_bare]))]
           [("studies", PList ([study_a] ++ [study_bare]))]
           [study_a] study_null_status [study_bare]
           Hn eq_refl eq_refl eq_refl).
Defined.

(** C3 fails on the code: a record that fails to project and whose
    identifier cannot be printed makes the handler of line 88 raise, and
    the exception leaves [fetch_all_trials] on the first of the three
    chained pages. *)
Theorem unprintable_id_aborts_three_pages :
  option_map (fun r => (result r, length (requests r)))
             (fetch_all_trials str_scalar (canned three_pages_unprintable)
                               caller_heap 1%positive 10 100)
  = Some (Raised UnicodeEncodeError, 1%nat).
Proof. vm_compute. reflexivity. Qed.

(** C4 fails on the code for the same reason: with [max_pages = 1] the
    one request is issued, but no list is returned. *)
Theorem unprintable_id_aborts_single_page :
  option_map (fun r => (result r, length (requests r)))
             (fetch_all_trials str_scalar (canned three_pages_unprintable)
                               caller_heap 1%positive 1 100)
  = Some (Raised UnicodeEncodeError, 1%nat).
Proof. vm_compute. reflexivity. Qed.

(** C5, as first stated, fails when a page is larger than was asked for:
    one page requested with [pageSize = 1] that carries two records gives
    two records. *)
Lemma oversized_page_exceeds_bound :
  exists r v,
    fetch_all_trials str_scalar (canned oversized_page)
                     caller_heap 1%positive 1 1 = Some r /\
    result r = Return v /\
    pages_fetched r = 1%nat /\
    length v = 2%nat /\
    ~ (Z.of_nat (length v) <= Z.of_nat (pages_fetched r) * 1)%Z.
Proof.
  eexists. eexists. split; [vm_compute; reflexivity|].
  split; [reflexivity|]. split; [reflexivity|]. split; [reflexivity|].
  vm_compute. intros H. apply H. reflexivity.
Qed.

Lemma length_bounded_witness :
  caller_heap !! 1%positive = Some caller_query /\
  exists r,
    fetch_all_trials str_scalar (canned page_then_error)
                     caller_heap 1%positive 10 100 = Some r /\
    forall v,
      result r = Return v ->
      (forall params data studies,
          In (params, Json data) (requests r) ->
          page_studies data = Ok studies ->
          (Z.of_nat (length studies) <= 100)%Z) ->
      (0 <= Z.of_nat (length v) <= Z.of_nat (pages_fetched r) * 100)%Z.
Proof.
  split; [reflexivity|].
  exact (length_bounded str_scalar (canned page_then_error)
           caller_heap 1%positive caller_query 10 100 eq_refl).
Defined.

Lemma caller_query_untouched_witness :
  caller_heap !! 1%positive = Some caller_query /\
  exists r,
    fetch_all_trials str_scalar (canned three_pages)
                     caller_heap 1%positive 10 100 = Some r /\
    final_heap r !! 1%positive = Some caller_query /\
    (forall l' d, caller_heap !! l' = Some d -> final_heap r !! l' = Some d).
Proof.
  split; [reflexivity|].
  exact (caller_query_untouched str_scalar (canned three_pages)
           caller_heap 1%positive caller_query 10 100 eq_refl).
Defined.

Lemma missing_fields_default_witness :
  _extract_study_data str_scalar study_bare = Ok (PDict default_fields) /\
  (forall key path dflt,
      In (key, path, dflt) field_defaults ->
      missing path study_bare ->
      Dict.get key default_fields = Some dflt) /\
  PNone <> PInt 0.
Proof.
  split; [reflexivity|].
  exact (missing_fields_default str_scalar study_bare default_fields eq_refl).
Defined.

Lemma derived_lists_witness :
  (forall s, str_scalar (PStr s) = s) /\
  _extract_study_data str_scalar study_a = Ok (PDict record_a) /\
  Dict.get "Interventions" record_a
  = Some (PList [PStr "Metformin"; PStr "N/A"]) /\
  Dict.get "Primary Outcome Measures" record_a
  = Some (PList [PStr "N/A"; PStr "HbA1c"]) /\
  Dict.get "Locations" record_a
  = Some (PList [PStr "Lyon, France"; PStr "Oslo, N/A"; PStr "N/A, N/A"]) /\
  PStr "N/A" <> PStr "Not Available".
Proof.
  split; [reflexivity|]. split; [reflexivity|].
  exact (derived_lists str_scalar (fun s => eq_refl) study_a record_a eq_refl).
Defined.

Lemma extracted_keys_fixed_witness :
  _extract_study_data str_scalar study_a = Ok (PDict record_a) /\
  Dict.keys record_a = output_keys.
Proof.
  split; [reflexivity|].
  exact (extracted_keys_fixed str_scalar study_a record_a eq_refl).
Defined.

Lemma empty_page_continues_witness :
  caller_heap !! 1%positive = Some caller_query /\
  delivers str_scalar (canned three_pages) 0
           (Dict.set "pageSize" (PInt 100) caller_query)
           [(query_sized, Json (PDict page_a_broken))] query_p2 /\
  (Z.of_nat (length [(query_sized, Json (PDict page_a_broken))]) < 10)%Z /\
  attempt (canned three_pages 1%nat query_p2) = Json (PDict page_empty) /\
  (Dict.get "studies" page_empty = None \/
   Dict.get "studies" page_empty = Some (PList [])) /\
  Dict.get "nextPageToken" page_empty = Some (PStr "p3") /\
  truthy (PStr "p3") = true /\
  exists r,
    fetch_all_trials str_scalar (canned three_pages)
                     caller_heap 1%positive 10 100 = Some r /\
    exchange_records str_scalar (query_p2, Json (PDict page_empty)) = [] /\
    exists rest,
      requests r
      = [(query_sized, Json (PDict page_a_broken))]
          ++ (query_p2, Json (PDict page_empty))
          :: (Dict.set "pageToken" (PStr "p3") query_p2,
              Json (PDict [("studies", PList [study_bare])])) :: rest /\
      forall v,
        result r = Return v ->
        v = flat_map (exchange_records str_scalar)
              ([(query_sized, Json (PDict page_a_broken))]
                 ++ (Dict.set "pageToken" (PStr "p3") query_p2,
                     Json (PDict [("studies", PList [study_bare])]))
                 :: rest).
Proof.
  assert (delivers str_scalar (canned three_pages) 0
            (Dict.set "pageSize" (PInt 100) caller_query)
            [(query_sized, Json (PDict page_a_broken))] query_p2) as Hd.
  { eapply (delivers_page _ _ 0 _ (PDict page_a_broken) [PDict record_a]
              (PStr "p2")); try reflexivity.
    apply delivers_none. }
  split; [reflexivity|]. split; [exact Hd|]. split; [simpl; lia|].
  split; [reflexivity|]. split; [right; reflexivity|].
  split; [reflexivity|]. split; [reflexivity|].
  exact (empty_page_continues str_scalar (canned three_pages)
           caller_heap 1%positive caller_query 10 100
           [(query_sized, Json (PDict page_a_broken))] query_p2
           page_empty (PStr "p3")
           eq_refl Hd ltac:(simpl; lia) eq_refl
           (or_intror eq_refl) eq_refl eq_refl).
Defined.

(** * Further properties of the code *)

(** ** Dictionaries *)

Lemma Dict_get_set_eq k v d : Dict.get k (Dict.set k v d) = Some v.
Proof.
  induction d as [|[k' v'] d IH]; simpl.
  - rewrite String.eqb_refl. reflexivity.
  - destruct (String.eqb_spec k k') as [->|Hne]; simpl.
    + rewrite String.eqb_refl. reflexivity.
    + destruct (String.eqb_spec k k'); [contradiction | exact IH].
Qed.

Lemma Dict_get_set_ne k k' v d :
  k' <> k -> Dict.get k' (Dict.set k v d) = Dict.get k' d.
Proof.
  intros Hne. induction d as [|[k0 v0] d IH]; simpl.
  - destruct (String.eqb_spec k' k); [contradiction | reflexivity].
  - destruct (String.eqb_spec k k0) as [->|Hk]; simpl.
    + destruct (String.eqb_spec k' k0); [contradiction | reflexivity].
    + destruct (String.eqb_spec k' k0); [reflexivity | exact IH].
Qed.

Lemma keys_get (k : string) (d : dict) :
  In k (Dict.keys d) -> exists v, Dict.get k d = Some v.
Proof.
  induction d as [|[k' v'] d IH]; simpl; [contradiction|].
  intros [<-|Hin].
  - rewrite String.eqb_refl. eauto.
  - destruct (String.eqb k k'); eauto.
Qed.

(** ** The record projector *)

(** Pushing a path that is found through the lookups of the [try]
    block. *)
Ltac chase_found Hf :=
  repeat match goal with
    | Hg : py_get ?v ?k _ = Ok _ |- _ =>
        match type of Hf with
        | lookup_path (k :: _) v = Some _ =>
            apply (py_get_found _ _ _ _ _ _ Hg) in Hf
        end
    end.

Lemma comprehension_dicts (f : pyval -> res pyval) items ys :
  (forall x y, f x = Ok y -> is_dict x = true) ->
  comprehension f items = Ok ys ->
  Forall (fun x => is_dict x = true) items.
Proof.
  intros Hf. revert ys. induction items as [|x rest IH]; intros ys H.
  - constructor.
  - simpl in H. bind_inv H. bind_inv H. constructor; eauto.
Qed.

Lemma comprehension_In (f : pyval -> res pyval) items ys :
  comprehension f items = Ok ys ->
  forall y, In y ys <-> exists x, In x items /\ f x = Ok y.
Proof.
  revert ys. induction items as [|x rest IH]; intros ys H y.
  - injection H as <-. simpl. split; [contradiction | intros (? & [] & _)].
  - simpl in H. bind_inv H. bind_inv H. injection H as <-. simpl.
    rewrite (IH _ Hx0 y). split.
    + intros [<-|(x' & Hin & Hf)]; eauto.
    + intros (x' & [<-|Hin] & Hf); [left; congruence | right; eauto].
Qed.

Lemma list_comp_dicts (f : pyval -> res pyval) v out :
  (forall x y, f x = Ok y -> is_dict x = true) ->
  list_comp f v = Ok out ->
  exists items,
    py_iter v = Ok items /\ Forall (fun x => is_dict x = true) items.
Proof.
  intros Hf H. unfold list_comp in H. bind_inv H. bind_inv H.
  eauto using comprehension_dicts.
Qed.

Lemma py_get_is_dict v k dflt x : py_get v k dflt = Ok x -> is_dict v = true.
Proof. intros H. apply py_get_Ok_inv in H as (d & -> & _). reflexivity. Qed.

Lemma print_value_printable v :
  print_value v = if printable v then Ok tt else Raise UnicodeEncodeError.
Proof.
  unfold printable, print_value. destruct v; try reflexivity.
  destruct (encodable s); reflexivity.
Qed.

(** The list read at [k1], [k2] is the value found there, if any, and
    what the comprehension iterates over are its entries. *)
Lemma entries_found raw protocol section found k1 k2 items :
  py_get raw "protocolSection" empty_dict = Ok protocol ->
  py_get protocol k1 empty_dict = Ok section ->
  py_get section k2 empty_list = Ok found ->
  py_iter found = Ok items ->
  entries [k1; k2] raw = items /\
  (forall v, lookup_path ["protocolSection"; k1; k2] raw = Some v ->
             v = found).
Proof.
  intros H1 H2 H3 Hit. unfold entries.
  destruct (lookup_path ["protocolSection"; k1; k2] raw) as [v|] eqn:E.
  - apply (py_get_found _ _ _ _ _ _ H1) in E.
    apply (py_get_found _ _ _ _ _ _ H2) in E.
    apply (py_get_found _ _ _ _ _ _ H3) in E.
    injection E as ->. rewrite Hit. split; [reflexivity|].
    intros v' [= ->]. reflexivity.
  - apply (py_get_missing_section _ _ _ _ _ H1) in E.
    apply (py_get_missing_section _ _ _ _ _ H2) in E.
    apply (py_get_missing_leaf _ _ _ _ H3) in E. subst found.
    injection Hit as <-. split; [reflexivity | discriminate].
Qed.

Section MoreProjectorFacts.

Variable py_str : pyval -> string.

Lemma location_string_is_dict loc y :
  location_string py_str loc = Ok y -> is_dict loc = true.
Proof.
  unfold location_string. intros H. bind_inv H.
  eapply py_get_is_dict; eassumption.
Qed.

Lemma extract_complete raw v :
  _extract_study_data py_str raw = Ok v ->
  v = PNone \/ complete_record v.
Proof.
  intros H.
  destruct (extract_Ok_cases py_str raw v H) as [(-> & _) | (rec & -> & Hb)];
    [left; reflexivity | right].
  exists rec. split; [reflexivity|].
  invert_body Hb. injection Hb as <-. reflexivity.
Qed.

Lemma extract_each_strings studies acc :
  Forall (fun x => exists s, x = PStr s) studies ->
  extract_each py_str studies acc = Ok acc.
Proof.
  intros H. revert acc. induction H as [|x rest [s ->] _ IH]; intros acc.
  - reflexivity.
  - simpl. apply IH.
Qed.

Lemma chars_strings s : Forall (fun x => exists s', x = PStr s') (chars s).
Proof. induction s; simpl; constructor; eauto. Qed.

Lemma keys_strings (d : dict) :
  Forall (fun x => exists s, x = PStr s) (map PStr (Dict.keys d)).
Proof. induction d; simpl; constructor; eauto. Qed.

(** What the records of a decoded page are made of. *)
Lemma page_records_Ok_inv data extracted :
  page_records py_str data = Ok extracted ->
  exists studies ys,
    page_studies data = Ok studies /\
    comprehension (_extract_study_data py_str) studies = Ok ys /\
    extracted = List.filter truthy ys.
Proof.
  unfold page_records. intros H. bind_inv H.
  rewrite extract_each_filter in H. bind_inv H. injection H as <-.
  eauto.
Qed.

Lemma page_records_bad_body data :
  is_dict data = false \/
  no_len (field_or "studies" (PList []) data) = true ->
  page_records py_str data
  = Raise (if is_dict data then TypeError else AttributeError).
Proof.
  unfold page_records, page_studies, py_get, no_len, field_or.
  intros [Hd|Hl].
  - destruct data; try reflexivity. discriminate.
  - destruct data; try reflexivity. simpl in *.
    destruct (Dict.get "studies" d) as [v|]; [|discriminate].
    destruct v; simpl in *; try reflexivity; discriminate.
Qed.

(** X1: on a record that projects successfully, each of the twelve
    fields that are copied holds exactly the value found at its path in
    the raw record, whatever that value is. *)
Theorem found_fields_copied raw rec key path v :
  _extract_study_data py_str raw = Ok (PDict rec) ->
  In (key, path) direct_fields ->
  lookup_path ("protocolSection" :: path) raw = Some v ->
  Dict.get key rec = Some v.
Proof.
  intros H Hin Hf. apply extract_PDict_body in H. invert_body H.
  injection H as <-. simpl in Hin.
  repeat (destruct Hin as [Hin|Hin];
          [injection Hin as <- <-; chase_found Hf;
           injection Hf as ->; reflexivity
          |]).
  contradiction.
Qed.

(** X2: a value that is present on the way to a field but is not a
    mapping -- [protocolSection] itself, one of its nine modules, a date
    structure or the enrollment information -- keeps the record from
    being projected, however complete the rest of it is: the handler
    runs, and the function returns [None], or raises
    [UnicodeEncodeError] when the identifier read so far is a string
    that cannot be printed. *)
Theorem section_not_mapping_drops raw path v :
  In path section_paths ->
  lookup_path ("protocolSection" :: path) raw = Some v ->
  is_dict v = false ->
  _extract_study_data py_str raw
  = if printable (diagnostic_id raw)
    then Ok PNone
    else Raise UnicodeEncodeError.
Proof.
  intros Hin Hf Hv.
  destruct (extract_cases py_str raw) as [(_ & E) | (rec & E & Hb)].
  { rewrite E. apply except_handler_printable. }
  exfalso. invert_body Hb. clear Hb.
  simpl in Hin.
  repeat (destruct Hin as [Hin|Hin];
          [subst path; chase_found Hf; injection Hf as ->;
           match goal with
           | Hg : py_get v _ _ = Ok _ |- _ =>
               apply py_get_is_dict in Hg; congruence
           end
          |]).
  contradiction.
Qed.

(** X3: on a record that projects successfully, the value found at the
    path of interventions, primary outcomes or locations can be iterated,
    and every entry it yields is a mapping; a record with an entry that is
    not one is therefore not projected. *)
Theorem entry_lists_well_formed raw rec path :
  _extract_study_data py_str raw = Ok (PDict rec) ->
  In path entry_list_paths ->
  (forall v, lookup_path ("protocolSection" :: path) raw = Some v ->
             exists items, py_iter v = Ok items) /\
  Forall (fun e => is_dict e = true) (entries path raw).
Proof.
  intros H Hin. apply extract_PDict_body in H. invert_body H.
  clear H. simpl in Hin.
  assert (forall k1 k2 protocol section found f out,
             py_get raw "protocolSection" empty_dict = Ok protocol ->
             py_get protocol k1 empty_dict = Ok section ->
             py_get section k2 empty_list = Ok found ->
             (forall e y, f e = Ok y -> is_dict e = true) ->
             list_comp f found = Ok out ->
             (forall v, lookup_path ["protocolSection"; k1; k2] raw = Some v ->
                        exists items, py_iter v = Ok items) /\
             Forall (fun e => is_dict e = true) (entries [k1; k2] raw))
    as Hgen.
  { intros k1 k2 protocol section found f out H1 H2 H3 Hf Hc.
    destruct (list_comp_dicts f found out Hf Hc) as (items & Hit & Hall).
    destruct (entries_found _ _ _ _ _ _ _ H1 H2 H3 Hit) as (-> & Hv).
    split; [|exact Hall]. intros v Hl. rewrite (Hv v Hl). eauto. }
  destruct Hin as [<-|[<-|[<-|[]]]];
    (eapply Hgen; [eassumption | eassumption | eassumption | | eassumption]).
  - intros e y. apply py_get_is_dict.
  - intros e y. apply py_get_is_dict.
  - intros e y. apply location_string_is_dict.
Qed.

(** X4: when a page whose studies are a list is processed without an
    exception, the records kept are exactly the results, other than
    [None], that the projection returns on its raw records: the test
    [if extracted_data] rejects no successful projection. *)
Theorem page_keeps_every_success d studies kept :
  Dict.get "studies" d = Some (PList studies) ->
  page_records py_str (PDict d) = Ok kept ->
  forall x,
    In x kept <->
    (x <> PNone /\
     exists raw, In raw studies /\ _extract_study_data py_str raw = Ok x).
Proof.
  intros H Hp x. rewrite (page_records_list py_str _ _ H) in Hp.
  bind_inv Hp. injection Hp as <-.
  rewrite List.filter_In, (comprehension_In _ _ _ Hx x). split.
  - intros ((raw & Hin & He) & Ht). split; [|eauto].
    apply (truthy_extract py_str raw x He). exact Ht.
  - intros (Hne & raw & Hin & He). split; [eauto|].
    apply (truthy_extract py_str raw x He). exact Hne.
Qed.

(** X5: a page whose [studies] value has a length but is not a list -- a
    string or an object -- contributes no record and raises nothing: its
    characters or keys are visited and each fails to project. *)
Theorem non_list_studies_give_nothing d v :
  Dict.get "studies" d = Some v ->
  no_len v = false ->
  (forall l', v <> PList l') ->
  page_records py_str (PDict d) = Ok [].
Proof.
  intros H Hlen Hnl. unfold page_records, page_studies, py_get. rewrite H.
  destruct v; unfold no_len in Hlen; simpl in Hlen; try discriminate Hlen;
    simpl.
  - apply extract_each_strings, chars_strings.
  - exfalso. eapply Hnl. reflexivity.
  - apply extract_each_strings, keys_strings.
Qed.

End MoreProjectorFacts.

(** ** The query runner *)

Lemma flat_map_filter_map {A B C : Type} (keep : C -> bool) (g : B -> C)
      (f : A -> list B) (xs : list A) :
  flat_map (fun x => List.filter keep (map g (f x))) xs
  = List.filter keep (map g (flat_map f xs)).
Proof.
  induction xs as [|x xs IH]; simpl; [reflexivity|].
  rewrite List.map_app, List.filter_app, IH. reflexivity.
Qed.

Lemma exchange_records_complete py_str (e : exchange) :
  Forall complete_record (exchange_records py_str e).
Proof.
  unfold exchange_records. destruct (snd e) as [| |data]; try constructor.
  destruct (page_records py_str data) as [extracted|] eqn:Hp;
    [|constructor].
  apply page_records_Ok_inv in Hp as (studies & ys & _ & Hc & ->).
  apply List.Forall_forall. intros x Hin.
  apply List.filter_In in Hin as (Hin & Ht).
  apply (comprehension_In _ _ _ Hc) in Hin as (raw & _ & He).
  destruct (extract_complete py_str raw x He) as [->|Hx]; [|exact Hx].
  discriminate.
Qed.

Section MoreRunnerFacts.

Variable py_str : pyval -> string.
Variable server : nat -> dict -> reply.
Variable max_pages : Z.
Variable l : loc.

Abbreviation go' := (runs py_str server max_pages l).

(** A run issues no more requests than pages are left. *)
Lemma runs_count st sent o h :
  go' st sent o h ->
  (Z.of_nat (length sent) <= Z.max 0 (max_pages - current_page st))%Z.
Proof.
  induction 1 as [st Hgt | st p e Hle Hl Hs | st p e Hle Hl Hs
                 | st p data e Hle Hl Hs Hp
                 | st p data ex tk Hle Hl Hs Hp Ht Htr
                 | st p data ex tk sent o h Hle Hl Hs Hp Ht Htr Hgo IH];
    simpl in *; lia.
Qed.

(** The first request of a run sends the working dictionary as it is. *)
Lemma runs_first st e rest o h :
  go' st (e :: rest) o h -> st_heap st !! l = Some (fst e).
Proof. inversion 1; subst; simpl; assumption. Qed.

(** A key other than [pageToken] has the same value in every request. *)
Lemma runs_params k st sent o h :
  k <> "pageToken" ->
  go' st sent o h ->
  forall p0,
    st_heap st !! l = Some p0 ->
    forall params resp,
      In (params, resp) sent -> Dict.get k params = Dict.get k p0.
Proof.
  intros Hk.
  induction 1 as [st Hgt | st p e Hle Hl Hs | st p e Hle Hl Hs
                 | st p data e Hle Hl Hs Hp
                 | st p data ex tk Hle Hl Hs Hp Ht Htr
                 | st p data ex tk sent o h Hle Hl Hs Hp Ht Htr Hgo IH];
    intros p0 Hp0 params resp' Hin; simpl in Hin.
  - contradiction.
  - destruct Hin as [[= <- <-]|[]]. congruence.
  - destruct Hin as [[= <- <-]|[]]. congruence.
  - destruct Hin as [[= <- <-]|[]]. congruence.
  - destruct Hin as [[= <- <-]|[]]. congruence.
  - assert (p = p0) as -> by congruence.
    destruct Hin as [[= <- <-]|Hin]; [reflexivity|].
    rewrite (IH _ (lookup_insert_eq _ _ _) _ _ Hin).
    apply Dict_get_set_ne. exact Hk.
Qed.

(** Two requests in a row: the first got a page with a token, and the
    second sends the parameters of the first with that token. *)
Lemma runs_consecutive st sent o h :
  go' st sent o h ->
  forall before p1 r1 p2 r2 after,
    sent = before ++ (p1, r1) :: (p2, r2) :: after ->
    exists data extracted token,
      r1 = Json data /\
      page_records py_str data = Ok extracted /\
      py_get data "nextPageToken" PNone = Ok token /\
      truthy token = true /\
      p2 = Dict.set "pageToken" token p1.
Proof.
  induction 1 as [st Hgt | st p e Hle Hl Hs | st p e Hle Hl Hs
                 | st p data e Hle Hl Hs Hp
                 | st p data ex tk Hle Hl Hs Hp Ht Htr
                 | st p data ex tk sent o h Hle Hl Hs Hp Ht Htr Hgo IH];
    intros before p1 r1 p2 r2 after Hsent.
  - destruct before; discriminate.
  - destruct before as [|? [|]]; discriminate.
  - destruct before as [|? [|]]; discriminate.
  - destruct before as [|? [|]]; discriminate.
  - destruct before as [|? [|]]; discriminate.
  - destruct before as [|e0 before].
    + injection Hsent as <- <- ->.
      apply runs_first in Hgo. simpl in Hgo.
      rewrite lookup_insert_eq in Hgo. injection Hgo as <-.
      exists data, ex, tk. auto.
    + injection Hsent as _ ->. eapply IH. reflexivity.
Qed.

(** A run whose last page raises, raises the same. *)
Lemma runs_raise_last st sent o h :
  go' st sent o h ->
  forall before params data e,
    sent = before ++ [(params, Json data)] ->
    page_records py_str data = Raise e ->
    o = Raised e.
Proof.
  induction 1 as [st Hgt | st p e Hle Hl Hs | st p e Hle Hl Hs
                 | st p data e Hle Hl Hs Hp
                 | st p data ex tk Hle Hl Hs Hp Ht Htr
                 | st p data ex tk sent o h Hle Hl Hs Hp Ht Htr Hgo IH];
    intros before params data' e' Hsent Hr.
  - destruct before; discriminate.
  - destruct before as [|? [|]]; discriminate.
  - destruct before as [|? [|]]; discriminate.
  - destruct before as [|? [|]]; try discriminate.
    injection Hsent as <- <-. congruence.
  - destruct before as [|? [|]]; try discriminate.
    injection Hsent as <- <-. congruence.
  - destruct before as [|e0 before].
    + injection Hsent as <- <- ->. congruence.
    + injection Hsent as _ ->. eapply IH; eauto.
Qed.

(** What a run returns is made of the raw records of its exchanges. *)
Lemma runs_projections st sent o h :
  go' st sent o h ->
  forall v,
    o = Return v ->
    exists ys,
      comprehension (_extract_study_data py_str)
                    (flat_map exchange_studies sent) = Ok ys /\
      v = all_extracted_studies st ++ List.filter truthy ys.
Proof.
  induction 1 as [st Hgt | st p e Hle Hl Hs | st p e Hle Hl Hs
                 | st p data e Hle Hl Hs Hp
                 | st p data ex tk Hle Hl Hs Hp Ht Htr
                 | st p data ex tk sent o h Hle Hl Hs Hp Ht Htr Hgo IH];
    intros v Hv; try discriminate.
  - injection Hv as <-. exists []. simpl. rewrite app_nil_r. auto.
  - injection Hv as <-. exists []. simpl. rewrite app_nil_r. auto.
  - injection Hv as <-.
    apply page_records_Ok_inv in Hp as (studies & ys & Hst & Hc & ->).
    exists ys. cbn [flat_map]. unfold exchange_studies at 1. simpl.
    rewrite Hst, app_nil_r. auto.
  - destruct (IH v Hv) as (ys' & Hc' & ->).
    apply page_records_Ok_inv in Hp as (studies & ys & Hst & Hc & ->).
    exists (ys ++ ys'). cbn [flat_map]. unfold exchange_studies at 1.
    simpl. rewrite Hst, comprehension_app, Hc, Hc'. simpl.
    rewrite List.filter_app, app_assoc. auto.
Qed.

End MoreRunnerFacts.

Section MoreFetchFacts.

Variable py_str : pyval -> string.
Variable server : nat -> dict -> reply.

(** X6: a call issues at most [max_pages] requests, and none at all
    when [max_pages] is zero or negative; it then returns the empty
    list. *)
Theorem requests_bounded (h : heap) qp q max_pages page_size :
  h !! qp = Some q ->
  exists r,
    fetch_all_trials py_str server h qp max_pages page_size = Some r /\
    (Z.of_nat (length (requests r)) <= Z.max 0 max_pages)%Z /\
    ((max_pages <= 0)%Z -> requests r = [] /\ result r = Return []).
Proof.
  intros Hq.
  destruct (fetch_runs py_str server h qp q max_pages page_size Hq)
    as (r & Hr & Hgo).
  exists r. split; [exact Hr|]. split.
  - pose proof (runs_count _ _ _ _ _ _ _ _ Hgo) as Hc. simpl in Hc.
    replace (max_pages - 0)%Z with max_pages in Hc by lia. exact Hc.
  - intros Hle. apply runs_at_limit in Hgo as (-> & -> & _);
      [auto | simpl; lia].
Qed.

(** X7: every request carries [pageSize] set to [page_size] -- a value
    the caller put under that key is overwritten -- and, for every other
    key except [pageToken], exactly what the caller's query holds. *)
Theorem requests_carry_query (h : heap) qp q max_pages page_size :
  h !! qp = Some q ->
  exists r,
    fetch_all_trials py_str server h qp max_pages page_size = Some r /\
    forall params resp,
      In (params, resp) (requests r) ->
      Dict.get "pageSize" params = Some (PInt page_size) /\
      (forall k, k <> "pageSize" -> k <> "pageToken" ->
                 Dict.get k params = Dict.get k q).
Proof.
  intros Hq.
  destruct (fetch_runs py_str server h qp q max_pages page_size Hq)
    as (r & Hr & Hgo).
  exists r. split; [exact Hr|]. intros params resp Hin. split.
  - rewrite (runs_params _ _ _ _ "pageSize" _ _ _ _ ltac:(discriminate) Hgo
               _ (lookup_insert_eq _ _ _) _ _ Hin).
    apply Dict_get_set_eq.
  - intros k Hk1 Hk2.
    rewrite (runs_params _ _ _ _ k _ _ _ _ Hk2 Hgo
               _ (lookup_insert_eq _ _ _) _ _ Hin).
    apply Dict_get_set_ne. exact Hk1.
Qed.

(** X8: when at least one page is allowed, the first request sends the
    caller's query with [pageSize] set and nothing else changed: a
    [pageToken] is sent first only if the caller supplied one. *)
Theorem first_request (h : heap) qp q max_pages page_size :
  h !! qp = Some q ->
  (1 <= max_pages)%Z ->
  exists r rest,
    fetch_all_trials py_str server h qp max_pages page_size = Some r /\
    requests r
    = (Dict.set "pageSize" (PInt page_size) q,
       attempt (server 0%nat (Dict.set "pageSize" (PInt page_size) q)))
        :: rest.
Proof.
  intros Hq Hmax.
  destruct (fetch_runs py_str server h qp q max_pages page_size Hq)
    as (r & Hr & Hgo).
  exists r.
  apply (runs_issues_request _ _ _ _ _
           (Dict.set "pageSize" (PInt page_size) q)) in Hgo as (rest & Hreq);
    [ | simpl; lia | simpl; apply lookup_insert_eq ].
  exists rest. split; [exact Hr | exact Hreq].
Qed.

(** X9: a request that follows another was caused by a token: the
    earlier response was a page carrying a truthy [nextPageToken], and
    the later request sends the earlier parameters with [pageToken] set
    to it. *)
Theorem token_threaded (h : heap) qp q max_pages page_size :
  h !! qp = Some q ->
  exists r,
    fetch_all_trials py_str server h qp max_pages page_size = Some r /\
    forall before p1 r1 p2 r2 after,
      requests r = before ++ (p1, r1) :: (p2, r2) :: after ->
      exists d token,
        r1 = Json (PDict d) /\
        Dict.get "nextPageToken" d = Some token /\
        truthy token = true /\
        p2 = Dict.set "pageToken" token p1.
Proof.
  intros Hq.
  destruct (fetch_runs py_str server h qp q max_pages page_size Hq)
    as (r & Hr & Hgo).
  exists r. split; [exact Hr|].
  intros before p1 r1 p2 r2 after Hsent.
  destruct (runs_consecutive _ _ _ _ _ _ _ _ Hgo _ _ _ _ _ _ Hsent)
    as (data & ex & token & -> & Hp & Ht & Htr & ->).
  apply py_get_Ok_inv in Ht as (d & -> & ->).
  exists d. destruct (Dict.get "nextPageToken" d) as [t|]; [|discriminate].
  eauto.
Qed.

(** X10: a page whose [nextPageToken] is absent or falsy -- [null], the
    empty string, zero, [false] -- is the last exchange of the call. *)
Theorem falsy_token_stops (h : heap) qp q max_pages page_size :
  h !! qp = Some q ->
  exists r,
    fetch_all_trials py_str server h qp max_pages page_size = Some r /\
    forall before params d after,
      requests r = before ++ (params, Json (PDict d)) :: after ->
      truthy (field_or "nextPageToken" PNone (PDict d)) = false ->
      after = [].
Proof.
  intros Hq.
  destruct (fetch_runs py_str server h qp q max_pages page_size Hq)
    as (r & Hr & Hgo).
  exists r. split; [exact Hr|].
  intros before params d [|[p2 r2] after] Hsent Hf; [reflexivity|].
  destruct (runs_consecutive _ _ _ _ _ _ _ _ Hgo _ _ _ _ _ _ Hsent)
    as (data & ex & token & [= <-] & Hp & Ht & Htr & _).
  rewrite (py_get_field_or _ _ _ _ Ht) in Htr. congruence.
Qed.

(** X12: a response whose decoded body is not an object, or whose
    [studies] value has no length, ends the call with an exception: the
    records of the pages fetched before it are not returned. *)
Theorem bad_body_raises (h : heap) qp q max_pages page_size :
  h !! qp = Some q ->
  exists r,
    fetch_all_trials py_str server h qp max_pages page_size = Some r /\
    forall before params data after,
      requests r = before ++ (params, Json data) :: after ->
      is_dict data = false \/
      no_len (field_or "studies" (PList []) data) = true ->
      after = [] /\
      result r = Raised (if is_dict data then TypeError else AttributeError).
Proof.
  intros Hq.
  destruct (fetch_runs py_str server h qp q max_pages page_size Hq)
    as (r & Hr & Hgo).
  exists r. split; [exact Hr|].
  intros before params data after Hsent Hbad.
  pose proof (page_records_bad_body py_str data Hbad) as Hp.
  destruct after as [|[p2 r2] after].
  - split; [reflexivity|].
    exact (runs_raise_last _ _ _ _ _ _ _ _ Hgo _ _ _ _ Hsent Hp).
  - destruct (runs_consecutive _ _ _ _ _ _ _ _ Hgo _ _ _ _ _ _ Hsent)
      as (data' & ex & token & [= <-] & Hp' & _). congruence.
Qed.

(** X13: when a call returns, the projection has returned on every raw
    record delivered, and the list returned is the sequence of these
    results, page after page and in page order, with the [None] of the
    failed projections removed: no record is reordered, repeated or
    invented. *)
Theorem result_in_order (h : heap) qp q max_pages page_size :
  h !! qp = Some q ->
  exists r,
    fetch_all_trials py_str server h qp max_pages page_size = Some r /\
    forall v,
      result r = Return v ->
      exists ys,
        comprehension (_extract_study_data py_str)
                      (flat_map exchange_studies (requests r)) = Ok ys /\
        v = List.filter truthy ys.
Proof.
  intros Hq.
  destruct (fetch_runs py_str server h qp q max_pages page_size Hq)
    as (r & Hr & Hgo).
  exists r. split; [exact Hr|]. intros v Hv.
  exact (runs_projections _ _ _ _ _ _ _ _ Hgo v Hv).
Qed.

(** X14: every element of the list returned is a dictionary with the
    fifteen output keys; [None] never appears in it. *)
Theorem returned_records_complete (h : heap) qp q max_pages page_size :
  h !! qp = Some q ->
  exists r,
    fetch_all_trials py_str server h qp max_pages page_size = Some r /\
    forall v, result r = Return v -> Forall complete_record v.
Proof.
  intros Hq.
  destruct (fetch_runs py_str server h qp q max_pages page_size Hq)
    as (r & Hr & Hgo).
  exists r. split; [exact Hr|]. intros v Hv.
  rewrite (runs_result _ _ _ _ _ _ _ _ Hgo v Hv). simpl.
  apply List.Forall_forall. intros x Hin.
  apply List.in_flat_map in Hin as (e & _ & Hin).
  pose proof (exchange_records_complete py_str e) as Hc.
  rewrite List.Forall_forall in Hc. auto.
Qed.

(** X15: when the service never puts more than [page_size] raw records
    on a page, a call returns at most [max_pages * page_size] records. *)
Theorem total_bounded (h : heap) qp q max_pages page_size :
  honours_page_size server page_size ->
  (0 <= page_size)%Z ->
  h !! qp = Some q ->
  exists r,
    fetch_all_trials py_str server h qp max_pages page_size = Some r /\
    forall v,
      result r = Return v ->
      (Z.of_nat (length v) <= Z.max 0 max_pages * page_size)%Z.
Proof.
  intros Hsrv Hps Hq.
  destruct (fetch_runs py_str server h qp q max_pages page_size Hq)
    as (r & Hr & Hgo).
  exists r. split; [exact Hr|]. intros v Hv.
  assert (forall params data studies,
             In (params, Json data) (requests r) ->
             page_studies data = Ok studies ->
             (Z.of_nat (length studies) <= page_size)%Z) as Hsize.
  { intros params data studies Hin Hst.
    destruct (runs_answers _ _ _ _ _ _ _ _ Hgo _ _ Hin) as (n & Hn).
    exact (Hsrv n params data studies Hn Hst). }
  pose proof (runs_length _ _ _ _ _ _ _ _ _ Hgo v Hv Hsize) as Hlen.
  pose proof (runs_count _ _ _ _ _ _ _ _ Hgo) as Hc.
  pose proof (List.filter_length_le is_page (requests r)) as Hfl.
  simpl in Hlen, Hc. replace (max_pages - 0)%Z with max_pages in Hc by lia.
  nia.
Qed.

(** X18: when the first three requests are answered by pages whose
    studies are lists, whose records are all projected without an
    exception and whose tokens lead from the first to the second to the
    third, the third carrying none, and [max_pages] is at least 3, the
    call issues exactly these three requests and returns the successful
    projections of page 1, then page 2, then page 3, each in page
    order. *)
Theorem three_pages_concatenated (h : heap) qp q max_pages page_size
        d1 d2 d3 s1 s2 s3 ys1 ys2 ys3 t1 t2 :
  let q1 := Dict.set "pageSize" (PInt page_size) q in
  let q2 := Dict.set "pageToken" t1 q1 in
  let q3 := Dict.set "pageToken" t2 q2 in
  h !! qp = Some q ->
  (3 <= max_pages)%Z ->
  attempt (server 0 q1) = Json (PDict d1) ->
  attempt (server 1 q2) = Json (PDict d2) ->
  attempt (server 2 q3) = Json (PDict d3) ->
  Dict.get "studies" d1 = Some (PList s1) ->
  Dict.get "studies" d2 = Some (PList s2) ->
  Dict.get "studies" d3 = Some (PList s3) ->
  comprehension (_extract_study_data py_str) s1 = Ok ys1 ->
  comprehension (_extract_study_data py_str) s2 = Ok ys2 ->
  comprehension (_extract_study_data py_str) s3 = Ok ys3 ->
  Dict.get "nextPageToken" d1 = Some t1 -> truthy t1 = true ->
  Dict.get "nextPageToken" d2 = Some t2 -> truthy t2 = true ->
  Dict.get "nextPageToken" d3 = None ->
  exists r,
    fetch_all_trials py_str server h qp max_pages page_size = Some r /\
    requests r
    = [(q1, Json (PDict d1)); (q2, Json (PDict d2)); (q3, Json (PDict d3))] /\
    result r
    = Return (List.filter truthy ys1 ++ List.filter truthy ys2
                ++ List.filter truthy ys3).
Proof.
  intros q1 q2 q3 Hq Hmax H1 H2 H3 Hs1 Hs2 Hs3 Hc1 Hc2 Hc3
         Ht1 Htr1 Ht2 Htr2 Ht3.
  destruct (fetch_runs py_str server h qp q max_pages page_size Hq)
    as (r & Hr & Hgo).
  exists r. split; [exact Hr|].
  eapply runs_on_next_page
    with (params := q1) (data := PDict d1) (token := t1)
         (extracted := List.filter truthy ys1)
    in Hgo as (sent1 & E1 & Hgo); try solve [page_side Hs1 Ht1].
  eapply runs_on_next_page
    with (params := q2) (data := PDict d2) (token := t2)
         (extracted := List.filter truthy ys2)
    in Hgo as (sent2 & E2 & Hgo); try solve [page_side Hs2 Ht2].
  eapply runs_on_last_page
    with (params := q3) (data := PDict d3) (token := PNone)
         (extracted := List.filter truthy ys3)
    in Hgo as (E3 & Ho & _); try solve [page_side Hs3 Ht3].
  simpl in Ho. rewrite E1, E2, E3, Ho, <- app_assoc. split; reflexivity.
Qed.

(** X19: with [max_pages = 1], a first page that carries a token and
    whose records are all projected without an exception is the only
    request of the call, which returns the successful projections of
    that page. *)
Theorem one_page_limit (h : heap) qp q page_size d studies ys token :
  let q1 := Dict.set "pageSize" (PInt page_size) q in
  h !! qp = Some q ->
  attempt (server 0 q1) = Json (PDict d) ->
  Dict.get "studies" d = Some (PList studies) ->
  comprehension (_extract_study_data py_str) studies = Ok ys ->
  Dict.get "nextPageToken" d = Some token ->
  truthy token = true ->
  exists r,
    fetch_all_trials py_str server h qp 1 page_size = Some r /\
    requests r = [(q1, Json (PDict d))] /\
    result r = Return (List.filter truthy ys).
Proof.
  intros q1 Hq H1 Hs Hc Ht Htr.
  destruct (fetch_runs py_str server h qp q 1 page_size Hq)
    as (r & Hr & Hgo).
  exists r. split; [exact Hr|].
  eapply runs_on_next_page
    with (params := q1) (data := PDict d) (token := token)
         (extracted := List.filter truthy ys)
    in Hgo as (sent1 & E1 & Hgo); try solve [page_side Hs Ht].
  apply runs_at_limit in Hgo as (-> & Ho & _); [|simpl; lia].
  rewrite E1, Ho. split; reflexivity.
Qed.

End MoreFetchFacts.

(** ** The callers *)

Lemma summary_row_complete study :
  complete_record study ->
  exists row,
    row_of study row /\
    summary_row study
    = if row_printable row then Ok row else Raise UnicodeEncodeError.
Proof.
  intros (rec & -> & Hk).
  assert (forall k, In k output_keys -> exists v, Dict.get k rec = Some v)
    as Hget by (intros k Hin; apply keys_get; rewrite Hk; exact Hin).
  destruct (Hget "NCT ID") as (a & Ha); [simpl; auto|].
  destruct (Hget "Title") as (b & Hb); [simpl; auto|].
  destruct (Hget "Status") as (c & Hc); [simpl; auto|].
  exists (a, b, c). split; [exists rec; auto|].
  unfold summary_row, py_get, row_printable. rewrite Ha, Hb, Hc. simpl.
  rewrite !print_value_printable.
  destruct (printable a), (printable b), (printable c); reflexivity.
Qed.

Lemma summary_rows_complete studies :
  Forall complete_record studies ->
  exists rows,
    Forall2 row_of studies rows /\
    summary_rows studies
    = if forallb row_printable rows
      then Ok rows
      else Raise UnicodeEncodeError.
Proof.
  induction 1 as [|study rest Hc _ (rows & Hall & Hrows)]; simpl.
  - exists []. split; [constructor | reflexivity].
  - destruct (summary_row_complete study Hc) as (row & Hof & Hrow).
    exists (row :: rows). split; [constructor; assumption|].
    rewrite Hrow, Hrows. simpl.
    destruct (row_printable row), (forallb row_printable rows);
      reflexivity.
Qed.

(** X16: whatever the service answers, the call of agent.py returns or
    raises after at most five requests, each of which carries the
    condition "breast cancer" and the default page size 100, and leaves
    [api_params] as it was. *)
Theorem agent_requests py_str server :
  exists r,
    agent py_str server = Some r /\
    (length (requests r) <= 5)%nat /\
    (forall params resp,
        In (params, resp) (requests r) ->
        Dict.get "query.cond" params = Some (PStr "breast cancer") /\
        Dict.get "pageSize" params = Some (PInt 100)) /\
    final_heap r !! 1%positive = Some api_params.
Proof.
  assert (agent_heap !! 1%positive = Some api_params) as Hq
      by apply lookup_singleton_eq.
  destruct (fetch_runs py_str server agent_heap 1%positive api_params 5
              DEFAULT_PAGE_SIZE Hq) as (r & Hr & Hgo).
  exists r. split; [exact Hr|]. split; [|split].
  - pose proof (runs_count _ _ _ _ _ _ _ _ Hgo) as Hc. simpl in Hc. lia.
  - intros params resp Hin. split.
    + rewrite (runs_params _ _ _ _ "query.cond" _ _ _ _ ltac:(discriminate)
                 Hgo _ (lookup_insert_eq _ _ _) _ _ Hin).
      reflexivity.
    + rewrite (runs_params _ _ _ _ "pageSize" _ _ _ _ ltac:(discriminate)
                 Hgo _ (lookup_insert_eq _ _ _) _ _ Hin).
      reflexivity.
  - pose proof (fresh_not_allocated _ _ _ Hq) as Hne.
    rewrite (runs_frame _ _ _ _ _ _ _ _ Hgo _ Hne). simpl.
    rewrite lookup_insert_ne; [exact Hq | congruence].
Qed.

(** X17: whatever the service answers, the example of the [__main__]
    block issues at most two requests; if the fetch raises, so does the
    example; if it returns the empty list, the example reports that
    nothing came back; otherwise the rows of the first three studies at
    most hold the identifier, title and status stored in each record --
    never the [None] that [.get] gives for a key that is not there -- and
    the example shows them, unless one of these values is a string that
    cannot be printed, in which case it raises [UnicodeEncodeError]. *)
Theorem example_usage_shows py_str server :
  exists r,
    fetch_all_trials py_str server {[ 1%positive := test_query ]}
                     1%positive 2 20 = Some r /\
    (length (requests r) <= 2)%nat /\
    match result r with
    | Raised e => example_usage py_str server = Some (Raise e)
    | Return [] => example_usage py_str server = Some (Ok NoResults)
    | Return results =>
        exists rows,
          Forall2 row_of (firstn 3 results) rows /\
          example_usage py_str server
          = Some (if forallb row_printable rows
                  then Ok (Studies (Nat.min 3 (length results)) rows)
                  else Raise UnicodeEncodeError)
    end.
Proof.
  assert (({[ 1%positive := test_query ]} : heap) !! 1%positive
          = Some test_query) as Hq by apply lookup_singleton_eq.
  destruct (fetch_runs py_str server _ 1%positive test_query 2 20 Hq)
    as (r & Hr & Hgo).
  exists r. split; [exact Hr|]. split.
  { pose proof (runs_count _ _ _ _ _ _ _ _ Hgo) as Hc. simpl in Hc. lia. }
  unfold example_usage. rewrite Hr.
  destruct (result r) as [results|e] eqn:Hres; [|reflexivity].
  destruct results as [|study rest]; [reflexivity|].
  assert (Forall complete_record (study :: rest)) as Hall.
  { rewrite (runs_result _ _ _ _ _ _ _ _ Hgo _ eq_refl). simpl.
    apply List.Forall_forall. intros x Hin.
    apply List.in_flat_map in Hin as (e & _ & Hin).
    pose proof (exchange_records_complete py_str e) as Hc.
    rewrite List.Forall_forall in Hc. auto. }
  destruct (summary_rows_complete (firstn 3 (study :: rest)))
    as (rows & Hof & Hrows); [apply Forall_take; exact Hall|].
  exists rows. split; [exact Hof|]. unfold example_report.
  change (truthy (PList (study :: rest))) with true. cbv iota.
  rewrite Hrows. destruct (forallb row_printable rows); reflexivity.
Qed.

(** ** The further properties on concrete inputs *)

Example project_null_status :
  _extract_study_data str_scalar study_null_status = Ok PNone.
Proof. reflexivity. Qed.

Example fetch_empty_token :
  option_map (fun r => (result r, length (requests r)))
             (fetch_all_trials str_scalar (canned empty_token_then_page)
                               caller_heap 1%positive 10 100)
  = Some (Return [PDict record_a], 1%nat).
Proof. vm_compute. reflexivity. Qed.

Example fetch_page_then_array :
  option_map (fun r => (result r, length (requests r)))
             (fetch_all_trials str_scalar (canned page_then_array)
                               caller_heap 1%positive 10 100)
  = Some (Raised AttributeError, 2%nat).
Proof. vm_compute. reflexivity. Qed.

Example example_usage_three_pages :
  example_usage str_scalar (canned three_pages)
  = Some (Ok (Studies 1 [(PStr "NCT00001", PStr "A", PStr "COMPLETED")])).
Proof. vm_compute. reflexivity. Qed.

(** A record that projects, with an identifier that cannot be printed:
    the fetch returns it and the display of the example raises. *)
Example example_usage_unprintable :
  example_usage str_scalar
    (canned [ok_200 (PDict [("studies", PList [study_surrogate_id])])])
  = Some (Raise UnicodeEncodeError).
Proof. vm_compute. reflexivity. Qed.

Lemma page_then_error_honours :
  honours_page_size (canned page_then_error) 100.
Proof.
  intros [|[|[|n]]] params data studies Hs Hst; simpl in Hs;
    try discriminate.
  injection Hs as <-. vm_compute in Hst. injection Hst as <-. simpl. lia.
Qed.

Lemma found_fields_copied_witness :
  _extract_study_data str_scalar study_a = Ok (PDict record_a) /\
  In ("Enrollment", ["designModule"; "enrollmentInfo"; "count"])
     direct_fields /\
  lookup_path ["protocolSection"; "designModule"; "enrollmentInfo"; "count"]
              study_a = Some (PInt 0) /\
  Dict.get "Enrollment" record_a = Some (PInt 0).
Proof.
  assert (In ("Enrollment", ["designModule"; "enrollmentInfo"; "count"])
             direct_fields) as Hin
      by (repeat first [left; reflexivity | right]).
  split; [reflexivity|]. split; [exact Hin|]. split; [reflexivity|].
  exact (found_fields_copied str_scalar study_a record_a _ _ _
           eq_refl Hin eq_refl).
Defined.

Lemma section_not_mapping_drops_witness :
  In ["statusModule"] section_paths /\
  lookup_path ["protocolSection"; "statusModule"] study_unprintable
  = Some PNone /\
  is_dict PNone = false /\
  printable (diagnostic_id study_unprintable) = false /\
  _extract_study_data str_scalar study_unprintable
  = Raise UnicodeEncodeError.
Proof.
  assert (In ["statusModule"] section_paths) as Hin
      by (repeat first [left; reflexivity | right]).
  split; [exact Hin|]. split; [reflexivity|]. split; [reflexivity|].
  split; [reflexivity|].
  exact (section_not_mapping_drops str_scalar study_unprintable _ _
           Hin eq_refl eq_refl).
Defined.

Lemma entry_lists_well_formed_witness :
  _extract_study_data str_scalar study_a = Ok (PDict record_a) /\
  In ["armsInterventionsModule"; "interventions"] entry_list_paths /\
  (forall v,
      lookup_path ["protocolSection"; "armsInterventionsModule";
                   "interventions"] study_a = Some v ->
      exists items, py_iter v = Ok items) /\
  Forall (fun e => is_dict e = true)
         (entries ["armsInterventionsModule"; "interventions"] study_a).
Proof.
  assert (In ["armsInterventionsModule"; "interventions"] entry_list_paths)
    as Hin by (left; reflexivity).
  split; [reflexivity|]. split; [exact Hin|].
  exact (entry_lists_well_formed str_scalar study_a record_a _ eq_refl Hin).
Defined.

Lemma page_keeps_every_success_witness :
  Dict.get "studies" page_a_broken = Some (PList [study_a; study_broken]) /\
  page_records str_scalar (PDict page_a_broken) = Ok [PDict record_a] /\
  forall x,
    In x [PDict record_a] <->
    (x <> PNone /\
     exists raw,
       In raw [study_a; study_broken] /\
       _extract_study_data str_scalar raw = Ok x).
Proof.
  split; [reflexivity|]. split; [reflexivity|].
  exact (page_keeps_every_success str_scalar page_a_broken
           [study_a; study_broken] [PDict record_a] eq_refl eq_refl).
Defined.

Lemma non_list_studies_give_nothing_witness :
  Dict.get "studies" [("studies", PStr "none")] = Some (PStr "none") /\
  no_len (PStr "none") = false /\
  (forall l', PStr "none" <> PList l') /\
  page_records str_scalar (PDict [("studies", PStr "none")]) = Ok [].
Proof.
  assert (forall l', PStr "none" <> PList l') as Hnl
      by (intros l' H; discriminate H).
  split; [reflexivity|]. split; [reflexivity|]. split; [exact Hnl|].
  exact (non_list_studies_give_nothing str_scalar
           [("studies", PStr "none")] (PStr "none") eq_refl eq_refl Hnl).
Defined.

Lemma requests_bounded_witness :
  caller_heap !! 1%positive = Some caller_query /\
  exists r,
    fetch_all_trials str_scalar (canned three_pages)
                     caller_heap 1%positive 2 100 = Some r /\
    (Z.of_nat (length (requests r)) <= Z.max 0 2)%Z /\
    ((2 <= 0)%Z -> requests r = [] /\ result r = Return []).
Proof.
  split; [reflexivity|].
  exact (requests_bounded str_scalar (canned three_pages)
           caller_heap 1%positive caller_query 2 100 eq_refl).
Defined.

Lemma requests_carry_query_witness :
  caller_heap !! 1%positive = Some caller_query /\
  exists r,
    fetch_all_trials str_scalar (canned three_pages)
                     caller_heap 1%positive 10 100 = Some r /\
    forall params resp,
      In (params, resp) (requests r) ->
      Dict.get "pageSize" params = Some (PInt 100) /\
      (forall k, k <> "pageSize" -> k <> "pageToken" ->
                 Dict.get k params = Dict.get k caller_query).
Proof.
  split; [reflexivity|].
  exact (requests_carry_query str_scalar (canned three_pages)
           caller_heap 1%positive caller_query 10 100 eq_refl).
Defined.

Lemma first_request_witness :
  caller_heap !! 1%positive = Some caller_query /\
  (1 <= 10)%Z /\
  exists r rest,
    fetch_all_trials str_scalar (canned three_pages)
                     caller_heap 1%positive 10 100 = Some r /\
    requests r
    = (query_sized, Json (PDict page_a_broken)) :: rest.
Proof.
  split; [reflexivity|]. split; [lia|].
  exact (first_request str_scalar (canned three_pages)
           caller_heap 1%positive caller_query 10 100 eq_refl ltac:(lia)).
Defined.

Lemma token_threaded_witness :
  caller_heap !! 1%positive = Some caller_query /\
  exists r,
    fetch_all_trials str_scalar (canned three_pages)
                     caller_heap 1%positive 10 100 = Some r /\
    forall before p1 r1 p2 r2 after,
      requests r = before ++ (p1, r1) :: (p2, r2) :: after ->
      exists d token,
        r1 = Json (PDict d) /\
        Dict.get "nextPageToken" d = Some token /\
        truthy token = true /\
        p2 = Dict.set "pageToken" token p1.
Proof.
  split; [reflexivity|].
  exact (token_threaded str_scalar (canned three_pages)
           caller_heap 1%positive caller_query 10 100 eq_refl).
Defined.

Lemma falsy_token_stops_witness :
  caller_heap !! 1%positive = Some caller_query /\
  exists r,
    fetch_all_trials str_scalar (canned empty_token_then_page)
                     caller_heap 1%positive 10 100 = Some r /\
    forall before params d after,
      requests r = before ++ (params, Json (PDict d)) :: after ->
      truthy (field_or "nextPageToken" PNone (PDict d)) = false ->
      after = [].
Proof.
  split; [reflexivity|].
  exact (falsy_token_stops str_scalar (canned empty_token_then_page)
           caller_heap 1%positive caller_query 10 100 eq_refl).
Defined.

Lemma bad_body_raises_witness :
  caller_heap !! 1%positive = Some caller_query /\
  exists r,
    fetch_all_trials str_scalar (canned page_then_array)
                     caller_heap 1%positive 10 100 = Some r /\
    forall before params data after,
      requests r = before ++ (params, Json data) :: after ->
      is_dict data = false \/
      no_len (field_or "studies" (PList []) data) = true ->
      after = [] /\
      result r = Raised (if is_dict data then TypeError else AttributeError).
Proof.
  split; [reflexivity|].
  exact (bad_body_raises str_scalar (canned page_then_array)
           caller_heap 1%positive caller_query 10 100 eq_refl).
Defined.

Lemma result_in_order_witness :
  caller_heap !! 1%positive = Some caller_query /\
  exists r,
    fetch_all_trials str_scalar (canned three_pages)
                     caller_heap 1%positive 10 100 = Some r /\
    forall v,
      result r = Return v ->
      exists ys,
        comprehension (_extract_study_data str_scalar)
                      (flat_map exchange_studies (requests r)) = Ok ys /\
        v = List.filter truthy ys.
Proof.
  split; [reflexivity|].
  exact (result_in_order str_scalar (canned three_pages)
           caller_heap 1%positive caller_query 10 100 eq_refl).
Defined.

Lemma returned_records_complete_witness :
  caller_heap !! 1%positive = Some caller_query /\
  exists r,
    fetch_all_trials str_scalar (canned three_pages)
                     caller_heap 1%positive 10 100 = Some r /\
    forall v, result r = Return v -> Forall complete_record v.
Proof.
  split; [reflexivity|].
  exact (returned_records_complete str_scalar (canned three_pages)
           caller_heap 1%positive caller_query 10 100 eq_refl).
Defined.

Lemma total_bounded_witness :
  honours_page_size (canned page_then_error) 100 /\
  (0 <= 100)%Z /\
  caller_heap !! 1%positive = Some caller_query /\
  exists r,
    fetch_all_trials str_scalar (canned page_then_error)
                     caller_heap 1%positive 10 100 = Some r /\
    forall v,
      result r = Return v ->
      (Z.of_nat (length v) <= Z.max 0 10 * 100)%Z.
Proof.
  split; [exact page_then_error_honours|]. split; [lia|].
  split; [reflexivity|].
  exact (total_bounded str_scalar (canned page_then_error)
           caller_heap 1%positive caller_query 10 100
           page_then_error_honours ltac:(lia) eq_refl).
Defined.

Lemma three_pages_concatenated_witness :
  caller_heap !! 1%positive = Some caller_query /\
  (3 <= 10)%Z /\
  comprehension (_extract_study_data str_scalar) [study_a; study_broken]
  = Ok [PDict record_a; PNone] /\
  exists r,
    fetch_all_trials str_scalar (canned three_pages)
                     caller_heap 1%positive 10 100 = Some r /\
    map fst (requests r)
    = [query_sized; query_p2; Dict.set "pageToken" (PStr "p3") query_p2] /\
    result r = Return [PDict record_a; all_defaults].
Proof.
  split; [reflexivity|]. split; [lia|]. split; [reflexivity|].
  destruct (three_pages_concatenated str_scalar (canned three_pages)
              caller_heap 1%positive caller_query 10 100
              page_a_broken page_empty [("studies", PList [study_bare])]
              [study_a; study_broken] [] [study_bare]
              [PDict record_a; PNone] [] [all_defaults]
              (PStr "p2") (PStr "p3")
              eq_refl ltac:(lia) eq_refl eq_refl eq_refl eq_refl eq_refl
              eq_refl eq_refl eq_refl eq_refl eq_refl eq_refl eq_refl
              eq_refl eq_refl)
    as (r & Hr & Hreq & Hres).
  exists r. split; [exact Hr|]. split.
  - rewrite Hreq. reflexivity.
  - rewrite Hres. reflexivity.
Defined.

Lemma one_page_limit_witness :
  caller_heap !! 1%positive = Some caller_query /\
  comprehension (_extract_study_data str_scalar) [study_a; study_broken]
  = Ok [PDict record_a; PNone] /\
  exists r,
    fetch_all_trials str_scalar (canned three_pages)
                     caller_heap 1%positive 1 100 = Some r /\
    requests r = [(query_sized, Json (PDict page_a_broken))] /\
    result r = Return [PDict record_a].
Proof.
  split; [reflexivity|]. split; [reflexivity|].
  exact (one_page_limit str_scalar (canned three_pages)
           caller_heap 1%positive caller_query 100
           page_a_broken [study_a; study_broken] [PDict record_a; PNone]
           (PStr "p2") eq_refl eq_refl eq_refl eq_refl eq_refl eq_refl).
Defined.
